(** * Heat flow solver: the Python utility functions called over the FFI

    A shallow embedding of [heat_solver_utils.py].  The module reads a JSON
    equipment configuration with [json.load] and reads and rewrites a CSV
    time series with [csv.DictReader] and [csv.DictWriter].

    What is modelled, and at which level:
    - a CSV file is the list of records that [csv.reader] yields for it and
      that [csv.writer] is handed, one [list string] per line, a blank line
      being the empty record; quoting and line terminators belong to the csv
      library and are not represented;
    - [csv.DictReader] and [csv.DictWriter] are modelled from Python's
      [csv.py]: the header is the first record, blank records are skipped,
      long rows get the key [None], short rows are padded with [None], and
      the writer raises on keys that are not field names;
    - a JSON file is the document [json.load] returns for it, or is
      malformed;
    - Python exceptions are values of [exn]; a function that can raise
      returns a [result];
    - [write_timeseries] threads the store of CSV files explicitly. *)

From stdpp Require Import gmap strings list.
From Stdlib Require Import ZArith DecimalString.

Set Warnings "-register-all,-clear-no-such-hyp".
Open Scope string_scope.
Open Scope list_scope.
Open Scope nat_scope.

(** ** Exceptions and results *)

(** The three places that raise [ValueError]: the two [raise] statements of
    the module, [float(s)] on a string that is no number, and
    [DictWriter._dict_to_list] on a row with keys outside the field names. *)
Inductive value_error :=
  | timestamp_not_found (timestamp csv_file : string)
  | could_not_convert_to_float (s : string)
  | fields_not_in_fieldnames (wrong_fields : gset (option string)).

Inductive exn :=
  | FileNotFoundError (path : string)
  | JSONDecodeError
  | KeyError (key : string)
  | TypeError
  | ValueError (why : value_error).

Inductive result (A : Type) :=
  | Ok (a : A)
  | Raise (e : exn).
Arguments Ok {A} a.
Arguments Raise {A} e.

#[global] Instance result_ret : MRet result := @Ok.
#[global] Instance result_bind : MBind result := λ A B f r,
  match r with
  | Ok a => f a
  | Raise e => Raise e
  end.
#[global] Instance result_fmap : FMap result := λ A B f r,
  match r with
  | Ok a => Ok (f a)
  | Raise e => Raise e
  end.

Definition is_Raise {A} (r : result A) : Prop :=
  match r with
  | Ok _ => False
  | Raise _ => True
  end.

(** The ten keyword arguments of [write_timeseries], in the order of the
    signature: column name and the record projection come later. *)
Definition output_fields : list string :=
  [ "total_heat_load"; "total_power";
    "hp1_load"; "hp1_power"; "hp2_load"; "hp2_power";
    "pump1_load"; "pump1_power"; "pump2_load"; "pump2_power" ].

Section HeatSolverUtils.

(** Python floats, with [float(s)] on a string ([None] when it raises
    [ValueError]) and [str(x)], which [csv.writer] applies to a number. *)
Variable pyfloat : Type.
Variable float_of_string : string → option pyfloat.
Variable float_str : pyfloat → string.

(** ** Rows of [csv.DictReader] *)

(** A value held by a row dictionary under a column name: a string read
    from the file, [None] for the padding of a short row, or a float
    stored by [write_timeseries]. *)
Inductive cell :=
  | PStr (s : string)
  | PNone
  | PFloat (x : pyfloat).

(** A row dictionary: its string keys, and the entry under the key [None]
    ([restkey]) which [DictReader] adds to a row longer than the header. *)
Record rowdict := RowDict {
  fields : gmap string cell;
  restkey : option (list string)
}.

(** [row[key]] *)
Definition getitem (row : rowdict) (key : string) : result cell :=
  match fields row !! key with
  | Some c => Ok c
  | None => Raise (KeyError key)
  end.

(** [row[key] = x] *)
Definition setitem (row : rowdict) (key : string) (c : cell) : rowdict :=
  RowDict (<[key := c]> (fields row)) (restkey row).

(** [float(c)] *)
Definition float (c : cell) : result pyfloat :=
  match c with
  | PStr s =>
      match float_of_string s with
      | Some x => Ok x
      | None => Raise (ValueError (could_not_convert_to_float s))
      end
  | PNone => Raise TypeError
  | PFloat x => Ok x
  end.

(** [c == timestamp] for a string [timestamp] *)
Definition eq_str (c : cell) (timestamp : string) : bool :=
  match c with
  | PStr s => bool_decide (s = timestamp)
  | _ => false
  end.

(** [dict(zip(fieldnames, row))]: a later duplicate of a name wins. *)
Definition dict_zip (fieldnames row : list string) : gmap string cell :=
  foldl (λ d kv, <[kv.1 := PStr kv.2]> d) ∅ (zip fieldnames row).

(** The body of [DictReader.__next__] after the blank records are skipped. *)
Definition DictReader_next (fieldnames row : list string) : rowdict :=
  let d := dict_zip fieldnames row in
  let lf := length fieldnames in
  let lr := length row in
  if bool_decide (lf < lr) then RowDict d (Some (drop lf row))
  else if bool_decide (lr < lf) then
    RowDict (foldl (λ d key, <[key := PNone]> d) d (drop lr fieldnames)) None
  else RowDict d None.

(** [reader.fieldnames]: the first record, [None] for an empty file. *)
Definition DictReader_fieldnames (records : list (list string))
  : option (list string) :=
  head records.

Definition nonblank (row : list string) : bool :=
  match row with
  | [] => false
  | _ => true
  end.

(** [list(reader)] *)
Definition DictReader_rows (records : list (list string)) : list rowdict :=
  match records with
  | [] => []
  | fieldnames :: data => DictReader_next fieldnames <$> filter nonblank data
  end.

(** ** Reading the time series *)

(** The [for row in reader] loop of [read_timeseries] and the [raise]
    behind it. *)
Fixpoint read_timeseries_loop (rows : list rowdict) (csv_file timestamp : string)
  : result (pyfloat * pyfloat) :=
  match rows with
  | [] => Raise (ValueError (timestamp_not_found timestamp csv_file))
  | row :: rows' =>
      time ← getitem row "time";
      if eq_str time timestamp then
        t2 ← getitem row "t2";
        x ← float t2;
        F2 ← getitem row "F2";
        y ← float F2;
        Ok (x, y)
      else read_timeseries_loop rows' csv_file timestamp
  end.

Definition read_timeseries (fs : gmap string (list (list string)))
    (csv_file timestamp : string) : result (pyfloat * pyfloat) :=
  match fs !! csv_file with
  | None => Raise (FileNotFoundError csv_file)
  | Some records =>
      read_timeseries_loop (DictReader_rows records) csv_file timestamp
  end.

Definition read_timeseries_t2 (fs : gmap string (list (list string)))
    (csv_file timestamp : string) : result pyfloat :=
  '(t2, _) ← read_timeseries fs csv_file timestamp;
  Ok t2.

Definition read_timeseries_f2 (fs : gmap string (list (list string)))
    (csv_file timestamp : string) : result pyfloat :=
  '(_, f2) ← read_timeseries fs csv_file timestamp;
  Ok f2.

(** ** Writing the time series *)

(** The keyword arguments of [write_timeseries]; [None] is the default. *)
Record outputs := Outputs {
  total_heat_load : option pyfloat;
  total_power : option pyfloat;
  hp1_load : option pyfloat;
  hp1_power : option pyfloat;
  hp2_load : option pyfloat;
  hp2_power : option pyfloat;
  pump1_load : option pyfloat;
  pump1_power : option pyfloat;
  pump2_load : option pyfloat;
  pump2_power : option pyfloat
}.

(** [if x is not None: row[key] = x] *)
Definition set_if_given (key : string) (x : option pyfloat) (row : rowdict)
  : rowdict :=
  match x with
  | Some v => setitem row key (PFloat v)
  | None => row
  end.

(** The ten conditional assignments on the matching row, in source order. *)
Definition assign_outputs (o : outputs) (row : rowdict) : rowdict :=
  let row := set_if_given "total_heat_load" (total_heat_load o) row in
  let row := set_if_given "total_power" (total_power o) row in
  let row := set_if_given "hp1_load" (hp1_load o) row in
  let row := set_if_given "hp1_power" (hp1_power o) row in
  let row := set_if_given "hp2_load" (hp2_load o) row in
  let row := set_if_given "hp2_power" (hp2_power o) row in
  let row := set_if_given "pump1_load" (pump1_load o) row in
  let row := set_if_given "pump1_power" (pump1_power o) row in
  let row := set_if_given "pump2_load" (pump2_load o) row in
  let row := set_if_given "pump2_power" (pump2_power o) row in
  row.

(** The [for row in rows] loop of [write_timeseries].  The loop mutates the
    dictionary that [rows] holds, so the list is returned with the matching
    row replaced; the boolean is [found]. *)
Fixpoint update_loop (rows : list rowdict) (timestamp : string) (o : outputs)
  : result (list rowdict * bool) :=
  match rows with
  | [] => Ok ([], false)
  | row :: rows' =>
      time ← getitem row "time";
      if eq_str time timestamp then Ok (assign_outputs o row :: rows', true)
      else
        '(rows'', found) ← update_loop rows' timestamp o;
        Ok (row :: rows'', found)
  end.

(** [rowdict.keys() - self.fieldnames] *)
Definition wrong_fields (fieldnames : list string) (row : rowdict)
  : gset (option string) :=
  set_map Some (dom (fields row) ∖ list_to_set fieldnames)
  ∪ (match restkey row with Some _ => {[ None ]} | None => ∅ end).

(** [rowdict.get(key, self.restval)], [restval] being the empty string *)
Definition get_restval (row : rowdict) (key : string) : cell :=
  default (PStr EmptyString) (fields row !! key).

(** [DictWriter._dict_to_list] with [extrasaction = "raise"] *)
Definition dict_to_list (fieldnames : list string) (row : rowdict)
  : result (list cell) :=
  let wrong := wrong_fields fieldnames row in
  if bool_decide (wrong ≠ ∅) then
    Raise (ValueError (fields_not_in_fieldnames wrong))
  else Ok (get_restval row <$> fieldnames).

(** What [csv.writer] writes for a field: a string as it is, [None] as the
    empty string, anything else through [str]. *)
Definition csv_str (c : cell) : string :=
  match c with
  | PStr s => s
  | PNone => EmptyString
  | PFloat x => float_str x
  end.

(** [DictWriter.writerow] appending to the records written so far. *)
Definition writerow (fieldnames : list string) (row : rowdict)
    (out : list (list string)) : result unit * list (list string) :=
  match dict_to_list fieldnames row with
  | Ok cells => (Ok (), out ++ [csv_str <$> cells])
  | Raise e => (Raise e, out)
  end.

(** [DictWriter.writeheader] *)
Definition writeheader (fieldnames : list string) (out : list (list string))
  : result unit * list (list string) :=
  writerow fieldnames (RowDict (dict_zip fieldnames fieldnames) None) out.

(** [DictWriter.writerows]: the rows are converted one at a time, so the
    rows before a failing one are already written. *)
Fixpoint writerows (fieldnames : list string) (rows : list rowdict)
    (out : list (list string)) : result unit * list (list string) :=
  match rows with
  | [] => (Ok (), out)
  | row :: rows' =>
      match writerow fieldnames row out with
      | (Ok _, out') => writerows fieldnames rows' out'
      | (Raise e, out') => (Raise e, out')
      end
  end.

(** The [with open(csv_file, 'w')] block: the file is truncated, then the
    header and the rows are written.  [fieldnames] is [None] only for a file
    without any record, where [zip] raises [TypeError]. *)
Definition write_back (fieldnames : option (list string)) (rows : list rowdict)
  : result unit * list (list string) :=
  match fieldnames with
  | None => (Raise TypeError, [])
  | Some fieldnames =>
      match writeheader fieldnames [] with
      | (Ok _, out) => writerows fieldnames rows out
      | (Raise e, out) => (Raise e, out)
      end
  end.

Definition write_timeseries (fs : gmap string (list (list string)))
    (csv_file timestamp : string) (o : outputs)
  : result unit * gmap string (list (list string)) :=
  match fs !! csv_file with
  | None => (Raise (FileNotFoundError csv_file), fs)
  | Some records =>
      let fieldnames := DictReader_fieldnames records in
      let rows := DictReader_rows records in
      match update_loop rows timestamp o with
      | Raise e => (Raise e, fs)
      | Ok (rows, found) =>
          if negb found then
            (Raise (ValueError (timestamp_not_found timestamp csv_file)), fs)
          else
            let '(r, out) := write_back fieldnames rows in
            (r, <[csv_file := out]> fs)
      end
  end.

(** ** The equipment configuration *)

(** The value [json.load] builds.  An object keeps its members as the
    document lists them; [dict_get] and [dict_keys] give the dictionary
    Python makes of them. *)
Inductive json :=
  | JNull
  | JBool (b : bool)
  | JInt (n : Z)
  | JFloat (x : pyfloat)
  | JStr (s : string)
  | JArr (items : list json)
  | JObj (members : list (string * json)).

(** A configuration file on disk: text that [json.load] rejects, or the
    document it returns. *)
Inductive json_file :=
  | Malformed
  | Document (config : json).

(** The value of a key in the dictionary of an object: the last member of
    that name. *)
Fixpoint dict_get (members : list (string * json)) (key : string)
  : option json :=
  match members with
  | [] => None
  | (k, v) :: members' =>
      match dict_get members' key with
      | Some v' => Some v'
      | None => if decide (k = key) then Some v else None
      end
  end.

(** The keys of that dictionary, each at the place of its first member. *)
Definition dict_keys (members : list (string * json)) : list string :=
  reverse (remove_dups (reverse members.*1)).

(** [value[key]] for a string [key]: only a dictionary can be indexed so. *)
Definition subscript (value : json) (key : string) : result json :=
  match value with
  | JObj members =>
      match dict_get members key with
      | Some v => Ok v
      | None => Raise (KeyError key)
      end
  | _ => Raise TypeError
  end.

(** [*value] inside a tuple display: the elements of a list, the characters
    of a string, the keys of a dictionary. *)
Definition unpack (value : json) : result (list json) :=
  match value with
  | JArr items => Ok items
  | JStr s => Ok ((λ c, JStr (String c EmptyString)) <$> String.list_ascii_of_string s)
  | JObj members => Ok (JStr <$> dict_keys members)
  | _ => Raise TypeError
  end.

(** [with open(config_file) as f: config = json.load(f)] *)
Definition json_load (fs : gmap string json_file) (config_file : string)
  : result json :=
  match fs !! config_file with
  | None => Raise (FileNotFoundError config_file)
  | Some Malformed => Raise JSONDecodeError
  | Some (Document config) => Ok config
  end.

Definition get_equipment_count (fs : gmap string json_file)
    (config_file : string) : result json :=
  config ← json_load fs config_file;
  heat_pumps ← subscript config "heat_pumps";
  subscript heat_pumps "count".

Definition get_hp_characteristics (fs : gmap string json_file)
    (config_file : string) : result (list json) :=
  config ← json_load fs config_file;
  hp ← subscript config "heat_pumps";
  characteristics ← subscript hp "characteristics";
  powers ← subscript characteristics "power_consumption";
  t_supply ← subscript hp "supply_temperature";
  load_limits ← subscript hp "load_limits";
  load_min ← subscript load_limits "min";
  load_limits ← subscript hp "load_limits";
  load_max ← subscript load_limits "max";
  powers ← unpack powers;
  Ok (powers ++ [t_supply; load_min; load_max]).

Definition get_pump_characteristics (fs : gmap string json_file)
    (config_file : string) : result json :=
  config ← json_load fs config_file;
  pumps ← subscript config "pumps";
  subscript pumps "rated_power".

End HeatSolverUtils.

Arguments PStr {pyfloat} s.
Arguments PNone {pyfloat}.
Arguments PFloat {pyfloat} x.
Arguments RowDict {pyfloat} fields restkey.
Arguments fields {pyfloat} r.
Arguments restkey {pyfloat} r.
Arguments float {pyfloat} float_of_string c.
Arguments read_timeseries_loop {pyfloat} float_of_string rows csv_file timestamp.
Arguments read_timeseries {pyfloat} float_of_string fs csv_file timestamp.
Arguments read_timeseries_t2 {pyfloat} float_of_string fs csv_file timestamp.
Arguments read_timeseries_f2 {pyfloat} float_of_string fs csv_file timestamp.
Arguments csv_str {pyfloat} float_str c.
Arguments writerow {pyfloat} float_str fieldnames row out.
Arguments writeheader {pyfloat} float_str fieldnames out.
Arguments writerows {pyfloat} float_str fieldnames rows out.
Arguments write_back {pyfloat} float_str fieldnames rows.
Arguments write_timeseries {pyfloat} float_str fs csv_file timestamp o.
Arguments getitem {pyfloat} row key.
Arguments setitem {pyfloat} row key c.
Arguments eq_str {pyfloat} c timestamp.
Arguments dict_zip {pyfloat} fieldnames row.
Arguments DictReader_next {pyfloat} fieldnames row.
Arguments DictReader_rows {pyfloat} records.
Arguments Outputs {pyfloat}.
Arguments set_if_given {pyfloat} key x row.
Arguments assign_outputs {pyfloat} o row.
Arguments update_loop {pyfloat} rows timestamp o.
Arguments wrong_fields {pyfloat} fieldnames row.
Arguments get_restval {pyfloat} row key.
Arguments dict_to_list {pyfloat} fieldnames row.
Arguments JNull {pyfloat}.
Arguments JBool {pyfloat} b.
Arguments JInt {pyfloat} n.
Arguments JFloat {pyfloat} x.
Arguments JStr {pyfloat} s.
Arguments JArr {pyfloat} items.
Arguments JObj {pyfloat} members.
Arguments Malformed {pyfloat}.
Arguments Document {pyfloat} config.
Arguments dict_get {pyfloat} members key.
Arguments dict_keys {pyfloat} members.
Arguments subscript {pyfloat} value key.
Arguments unpack {pyfloat} value.
Arguments json_load {pyfloat} fs config_file.
Arguments get_equipment_count {pyfloat} fs config_file.
Arguments get_hp_characteristics {pyfloat} fs config_file.
Arguments get_pump_characteristics {pyfloat} fs config_file.

(** Cells can be compared when floats can. *)
#[global] Instance cell_eq_dec {pyfloat : Type} `{EqDecision pyfloat} :
  EqDecision (cell pyfloat).
Proof. solve_decision. Defined.

(** ** Vocabulary of the statements *)

Section Vocabulary.
Context {pyfloat : Type}.

(** The keyword arguments paired with the column each one is stored under,
    as the ten [if] statements of [write_timeseries] pair them. *)
Definition output_args (o : outputs pyfloat) : list (string * option pyfloat) :=
  [ ("total_heat_load", total_heat_load _ o); ("total_power", total_power _ o);
    ("hp1_load", hp1_load _ o); ("hp1_power", hp1_power _ o);
    ("hp2_load", hp2_load _ o); ("hp2_power", hp2_power _ o);
    ("pump1_load", pump1_load _ o); ("pump1_power", pump1_power _ o);
    ("pump2_load", pump2_load _ o); ("pump2_power", pump2_power _ o) ].

Fixpoint lookup_arg (args : list (string * option pyfloat)) (key : string)
  : option pyfloat :=
  match args with
  | [] => None
  | (k, x) :: args' => if decide (k = key) then x else lookup_arg args' key
  end.

(** The value the caller supplied for a column, if any. *)
Definition given (o : outputs pyfloat) (key : string) : option pyfloat :=
  lookup_arg (output_args o) key.

(** Every supplied value has its column in the header. *)
Definition given_in_header (o : outputs pyfloat) (header : list string) : Prop :=
  Forall (λ kx : string * option pyfloat, is_Some kx.2 → kx.1 ∈ header)
    (output_args o).

(** No line of the file is ragged: a data record is blank or has one field
    per column. *)
Definition rectangular (header : list string) (data : list (list string))
  : Prop :=
  Forall (λ r : list string, r = [] ∨ length r = length header) data.

(** The row's key is the timestamp. *)
Definition key_is (timestamp : string) (row : rowdict pyfloat) : Prop :=
  fields row !! "time" = Some (PStr timestamp).

#[global] Instance key_is_dec `{EqDecision pyfloat} timestamp row :
  Decision (key_is timestamp row).
Proof. unfold key_is. apply _. Defined.

(** Row [i] is the first row, in file order, whose key is the timestamp. *)
Definition first_match (rows : list (rowdict pyfloat)) (timestamp : string)
    (i : nat) (row : rowdict pyfloat) : Prop :=
  rows !! i = Some row ∧ key_is timestamp row ∧
  ∀ j row', j < i → rows !! j = Some row' → ¬ key_is timestamp row'.

(** The record [csv.writer] is handed for a row that passes the check of
    [dict_to_list]. *)
Definition render (float_str : pyfloat → string) (header : list string)
    (row : rowdict pyfloat) : list string :=
  csv_str float_str <$> (get_restval row <$> header).

(** The cell is a string, as every cell read from a file is. *)
Definition is_str (c : cell pyfloat) : Prop := ∃ s, c = PStr s.

(** The row has the key [time], so that [row['time']] does not raise. *)
Definition has_time (row : rowdict pyfloat) : Prop :=
  is_Some (fields row !! "time").

(** A row as [DictReader] makes it of a record with one field per column:
    no [None] key, the columns of the header as keys, strings as values. *)
Definition clean (header : list string) (row : rowdict pyfloat) : Prop :=
  restkey row = None ∧ dom (fields row) = list_to_set header ∧
  map_Forall (λ _, is_str) (fields row).

(** A record of the file with the supplied values put in their columns. *)
Definition patch_record (float_str : pyfloat → string) (o : outputs pyfloat)
    (header rec : list string) : list string :=
  zip_with
    (λ key c, match given o key with Some v => float_str v | None => c end)
    header rec.

(** The second value if there is one, else the first. *)
Definition or_else (x y : option pyfloat) : option pyfloat :=
  match y with
  | Some v => Some v
  | None => x
  end.

(** The keyword arguments of a call overridden by those of a later call. *)
Definition override (o1 o2 : outputs pyfloat) : outputs pyfloat :=
  Outputs
    (or_else (total_heat_load _ o1) (total_heat_load _ o2))
    (or_else (total_power _ o1) (total_power _ o2))
    (or_else (hp1_load _ o1) (hp1_load _ o2))
    (or_else (hp1_power _ o1) (hp1_power _ o2))
    (or_else (hp2_load _ o1) (hp2_load _ o2))
    (or_else (hp2_power _ o1) (hp2_power _ o2))
    (or_else (pump1_load _ o1) (pump1_load _ o2))
    (or_else (pump1_power _ o1) (pump1_power _ o2))
    (or_else (pump2_load _ o1) (pump2_load _ o2))
    (or_else (pump2_power _ o1) (pump2_power _ o2)).

(** Two rows that [csv.writer] writes the same text for, column by
    column. *)
Definition same_text (float_str : pyfloat → string) (header : list string)
    (row1 row2 : rowdict pyfloat) : Prop :=
  ∀ key, key ∈ header →
    csv_str float_str (get_restval row1 key)
    = csv_str float_str (get_restval row2 key).

(** A JSON value other than an object: [value[key]] raises [TypeError]. *)
Definition not_object (value : json pyfloat) : Prop :=
  match value with
  | JObj _ => False
  | _ => True
  end.

(** A JSON value that cannot be iterated: [*value] raises [TypeError]. *)
Definition scalar (value : json pyfloat) : Prop :=
  match value with
  | JNull | JBool _ | JInt _ | JFloat _ => True
  | _ => False
  end.

(** The three columns [read_timeseries] looks at. *)
Definition read_columns : list string := ["time"; "t2"; "F2"].

(** A caller issuing one write after the other on a file, going on
    whatever each call returns or raises. *)
Definition write_all (float_str : pyfloat → string)
    (fs : gmap string (list (list string))) (csv_file : string)
    (calls : list (string * outputs pyfloat))
  : gmap string (list (list string)) :=
  foldl (λ fs call, (write_timeseries float_str fs csv_file call.1 call.2).2)
    fs calls.

(** The keys of the rows of a file, in file order. *)
Definition row_keys (records : list (list string)) : list (option (cell pyfloat)) :=
  (λ row : rowdict pyfloat, fields row !! "time") <$> DictReader_rows records.

End Vocabulary.

(** ** Sample data *)

(** A stand-in for Python floats in the examples: whole numbers in decimal. *)
Definition sample_float_of_string (s : string) : option Z :=
  Z.of_int <$> NilZero.int_of_string s.

Definition sample_float_str (x : Z) : string :=
  NilZero.string_of_int (Z.to_int x).

Definition sample_header : list string :=
  "time" :: "t2" :: "F2" :: output_fields.

(** An output cell not yet filled in. *)
Definition blank : string := EmptyString.

Definition sample_record : list string :=
  [ "202512071900"; "45"; "120"; blank; blank; "70"; blank; blank; blank;
    blank; blank; blank; blank ].

Definition sample_data : list (list string) :=
  [ [ "202512071800"; "44"; "110"; blank; blank; blank; blank; blank; blank;
      blank; blank; blank; blank ];
    [];
    sample_record;
    [ "202512072000"; "46"; "130"; blank; blank; blank; blank; blank; blank;
      blank; blank; blank; blank ] ].

Definition sample_csv : list (list string) := sample_header :: sample_data.

Definition sample_row : rowdict Z := DictReader_next sample_header sample_record.

Definition sample_fs : gmap string (list (list string)) :=
  {[ "timeseries.csv" := sample_csv ]}.

Definition no_outputs : outputs Z :=
  Outputs None None None None None None None None None None.

Definition sample_outputs : outputs Z :=
  Outputs None (Some 45%Z) (Some 80%Z) None None None None None None None.

Definition sample_config : json Z :=
  JObj
    [ ("heat_pumps",
       JObj
         [ ("count", JInt 2);
           ("characteristics",
            JObj [ ("power_consumption",
                    JArr [JInt 5; JInt 12; JInt 20; JInt 29; JInt 39; JInt 50]) ]);
           ("supply_temperature", JInt 7);
           ("load_limits", JObj [ ("min", JInt 20); ("max", JInt 100) ]) ]);
      ("pumps", JObj [ ("rated_power", JInt 3) ]) ].

Definition sample_json_fs : gmap string (json_file Z) :=
  {[ "equipment_config.json" := Document sample_config;
     "empty.json" := Document (JObj []);
     "no_count.json" := Document (JObj [("heat_pumps", JObj [])]);
     "broken.json" := Malformed ]}.

(** A time series without the output columns. *)
Definition inputs_only_header : list string := ["time"; "t2"; "F2"].

Definition inputs_only_data : list (list string) :=
  [ ["202512071800"; "44"; "110"];
    ["202512071900"; "45"; "120"] ].

Definition inputs_only_csv : list (list string) :=
  inputs_only_header :: inputs_only_data.

Definition inputs_only_row : rowdict Z :=
  DictReader_next inputs_only_header ["202512071900"; "45"; "120"].

Definition inputs_only_fs : gmap string (list (list string)) :=
  {[ "timeseries.csv" := inputs_only_csv ]}.

(** A file with a short line, a line whose [t2] is no number and a line
    with a field too many. *)
Definition ragged_csv : list (list string) :=
  [ inputs_only_header;
    ["202512071800"];
    ["202512071900"; "n/a"; "120"];
    ["202512071900"; "45"; "120"];
    ["202512072000"; "46"; "130"; "7"] ].

Definition ragged_fs : gmap string (list (list string)) :=
  {[ "timeseries.csv" := ragged_csv; "empty.csv" := [];
     "header.csv" := [["t2"; "F2"]; []] ]}.

Definition short_row : rowdict Z :=
  DictReader_next inputs_only_header ["202512071800"].

Definition bad_number_row : rowdict Z :=
  DictReader_next inputs_only_header ["202512071900"; "n/a"; "120"].

Definition later_outputs : outputs Z :=
  Outputs (Some 300%Z) None (Some 90%Z) None None None None None None None.

Definition sample_first_row : rowdict Z :=
  DictReader_next sample_header
    [ "202512071800"; "44"; "110"; blank; blank; blank; blank; blank; blank;
      blank; blank; blank; blank ].

(** Configuration files that are JSON but not the expected document. *)
Definition odd_json_fs : gmap string (json_file Z) :=
  {[ "list.json" := Document (JArr [JInt 1; JInt 2]);
     "flat.json" := Document (JObj [("pumps", JInt 3); ("heat_pumps", JNull)]);
     "no_power.json" := Document (JObj [("pumps", JObj [])]);
     "two_points.json" :=
       Document
         (JObj [ ("heat_pumps",
                  JObj [ ("characteristics",
                          JObj [("power_consumption", JArr [JInt 5; JInt 50])]);
                         ("supply_temperature", JInt 7);
                         ("load_limits",
                          JObj [("min", JInt 20); ("max", JInt 100)]) ]) ]);
     "scalar_power.json" :=
       Document
         (JObj [ ("heat_pumps",
                  JObj [ ("characteristics",
                          JObj [("power_consumption", JInt 5)]);
                         ("load_limits", JObj [("min", JInt 20)]) ]) ]) ]}.

(** C7 as the claim words it for the write: a value supplied for a column
    that the header lacks makes the write raise the schema error. *)
Definition missing_column_always_schema_error : Prop :=
  ∀ (fs : gmap string (list (list string))) csv_file timestamp (o : outputs Z)
    header data key v,
    fs !! csv_file = Some (header :: data) →
    given o key = Some v → key ∉ header →
    ∃ w fs', write_timeseries sample_float_str fs csv_file timestamp o
             = (Raise (ValueError (fields_not_in_fieldnames w)), fs').

(** Tactics for the hypotheses of a theorem at a sample input. *)
Ltac compute_hyp := apply (bool_decide_unpack _); vm_compute; exact I.

Ltac second_row_matches :=
  split_and!;
  [ vm_compute; reflexivity
  | vm_compute; reflexivity
  | let j := fresh "j" in let r := fresh "r" in
    let Hj := fresh "Hj" in let Hr := fresh "Hr" in let Hk := fresh "Hk" in
    intros j r Hj Hr Hk;
    assert (j = 0) as -> by lia;
    vm_compute in Hr; injection Hr as <-;
    vm_compute in Hk; discriminate Hk ].

Ltac first_row_matches :=
  split_and!;
  [ vm_compute; reflexivity
  | vm_compute; reflexivity
  | intros; lia ].

(** * Properties *)

Section Properties.
Context {pyfloat : Type}.

Implicit Types (row : rowdict pyfloat) (rows : list (rowdict pyfloat)).
Implicit Types (d : gmap string (cell pyfloat)) (o : outputs pyfloat).
Implicit Types (fs : gmap string (list (list string))).
Implicit Types (header rec : list string) (data : list (list string)).

(** ** Dictionaries built by [DictReader] *)

Lemma foldl_zip_dom d (l : list (string * string)) :
  dom (foldl (λ d kv, <[kv.1 := PStr kv.2]> d) d l) = dom d ∪ list_to_set l.*1.
Proof.
  revert d. induction l as [|[k v] l IH]; intros d; simpl.
  - set_solver.
  - rewrite IH, dom_insert_L. set_solver.
Qed.

Lemma foldl_zip_is_str d (l : list (string * string)) :
  map_Forall (λ _, is_str) d →
  map_Forall (λ _, is_str) (foldl (λ d kv, <[kv.1 := PStr kv.2]> d) d l).
Proof.
  revert d. induction l as [|[k v] l IH]; intros d Hd; simpl; [done|].
  apply IH, map_Forall_insert_2; [by eexists|done].
Qed.

Lemma foldl_zip_fmap_lookup (f : string → string) header d key :
  foldl (λ d kv, <[kv.1 := PStr kv.2]> d) d (zip header (f <$> header)) !! key
  = if decide (key ∈ header) then Some (PStr (f key)) else d !! key.
Proof.
  revert d. induction header as [|k header IH]; intros d; simpl.
  - done.
  - rewrite IH. destruct (decide (key ∈ header)) as [Hin|Hin].
    + by rewrite decide_True by (by apply list_elem_of_further).
    + destruct (decide (key = k)) as [->|Hne].
      * rewrite decide_True by apply list_elem_of_here.
        apply lookup_insert_eq.
      * rewrite decide_False by (intros [?|?]%elem_of_cons; done).
        by rewrite lookup_insert_ne.
Qed.

Lemma dict_zip_fmap_lookup (f : string → string) header key :
  dict_zip (pyfloat:=pyfloat) header (f <$> header) !! key
  = if decide (key ∈ header) then Some (PStr (f key)) else None.
Proof. unfold dict_zip. by rewrite foldl_zip_fmap_lookup, lookup_empty. Qed.

Lemma dict_zip_dom header rec :
  length header ≤ length rec →
  dom (dict_zip (pyfloat:=pyfloat) header rec) = list_to_set header.
Proof.
  intros Hlen. unfold dict_zip.
  rewrite foldl_zip_dom, dom_empty_L, fst_zip by done. set_solver.
Qed.

Lemma dict_zip_is_str header rec :
  map_Forall (λ _, is_str) (dict_zip (pyfloat:=pyfloat) header rec).
Proof. apply foldl_zip_is_str, map_Forall_empty. Qed.

Lemma DictReader_next_rect header rec :
  length rec = length header →
  DictReader_next (pyfloat:=pyfloat) header rec = RowDict (dict_zip header rec) None.
Proof.
  intros Hlen. unfold DictReader_next.
  rewrite !bool_decide_eq_false_2 by lia. done.
Qed.

(** Whatever the length of the record, the row has exactly the columns of
    the header as its string keys. *)
Lemma DictReader_next_dom header rec :
  dom (fields (DictReader_next (pyfloat:=pyfloat) header rec))
  = list_to_set header.
Proof.
  unfold DictReader_next.
  destruct (decide (length header < length rec)) as [Hlt|Hge].
  - rewrite bool_decide_eq_true_2 by done. simpl.
    apply dict_zip_dom. lia.
  - rewrite bool_decide_eq_false_2 by done.
    destruct (decide (length rec < length header)) as [Hlt|Hle].
    + rewrite bool_decide_eq_true_2 by done. simpl.
      assert (Hpad : ∀ (l : list string) d,
        dom (foldl (λ d key, <[key := PNone]> d) d l) = dom d ∪ list_to_set l).
      { induction l as [|k l IH]; intros d; simpl; [set_solver|].
        rewrite IH, dom_insert_L. set_solver. }
      rewrite Hpad. unfold dict_zip.
      rewrite foldl_zip_dom, dom_empty_L.
      rewrite <-(zip_with_take_l _ header rec) by lia.
      rewrite fst_zip by (rewrite length_take; lia).
      rewrite <-(take_drop (length rec) header) at 3.
      rewrite list_to_set_app_L. set_solver.
    + rewrite bool_decide_eq_false_2 by done. simpl.
      apply dict_zip_dom. lia.
Qed.

Lemma DictReader_next_has_key header rec key :
  is_Some (fields (DictReader_next (pyfloat:=pyfloat) header rec) !! key)
  ↔ key ∈ header.
Proof.
  rewrite <-elem_of_dom, DictReader_next_dom. apply elem_of_list_to_set.
Qed.

Lemma DictReader_rows_has_key header data key row :
  row ∈ DictReader_rows (pyfloat:=pyfloat) (header :: data) →
  is_Some (fields row !! key) ↔ key ∈ header.
Proof.
  simpl. intros (rec & -> & _)%list_elem_of_fmap.
  apply DictReader_next_has_key.
Qed.

(** ** The comparison with the timestamp *)

Lemma eq_str_true (c : cell pyfloat) timestamp :
  eq_str c timestamp = true ↔ c = PStr timestamp.
Proof.
  destruct c as [s| |x]; simpl; [|by split..].
  rewrite bool_decide_eq_true. split; [by intros ->|by intros [= ->]].
Qed.

Lemma eq_str_false (c : cell pyfloat) timestamp :
  eq_str c timestamp = false ↔ c ≠ PStr timestamp.
Proof. rewrite <-eq_str_true. by destruct (eq_str c timestamp). Qed.

(** ** The keyword arguments *)

Lemma output_args_fields o : (output_args o).*1 = output_fields.
Proof. done. Qed.

Lemma output_fields_NoDup : NoDup output_fields.
Proof. apply (bool_decide_unpack _). by vm_compute. Qed.

Lemma lookup_arg_None (args : list (string * option pyfloat)) key :
  key ∉ args.*1 → lookup_arg args key = None.
Proof.
  induction args as [|[k x] args IH]; simpl; [done|].
  intros Hnot. rewrite not_elem_of_cons in Hnot. destruct Hnot as [Hne Hnot].
  rewrite decide_False by done. by apply IH.
Qed.

Lemma lookup_arg_Some (args : list (string * option pyfloat)) key x :
  lookup_arg args key = Some x → (key, Some x) ∈ args.
Proof.
  induction args as [|[k y] args IH]; simpl; [done|].
  case_decide as Hk.
  - intros ->. subst k. apply list_elem_of_here.
  - intros H. apply list_elem_of_further. by apply IH.
Qed.

Lemma lookup_arg_elem (args : list (string * option pyfloat)) key x :
  NoDup args.*1 → (key, x) ∈ args → lookup_arg args key = x.
Proof.
  induction args as [|[k y] args IH]; simpl.
  - by intros _ ?%elem_of_nil.
  - intros [Hk Hnd]%NoDup_cons [[= -> ->]|Hin]%elem_of_cons.
    + by rewrite decide_True.
    + rewrite decide_False; [by apply IH|].
      intros ->. apply Hk. apply list_elem_of_fmap. by exists (key, x).
Qed.

Lemma given_in_header_elem o header key x :
  given_in_header o header → given o key = Some x → key ∈ header.
Proof.
  unfold given_in_header, given. rewrite Forall_forall.
  intros Hall Hx%lookup_arg_Some. by apply (Hall _ Hx).
Qed.

Lemma given_output_field o key : is_Some (given o key) → key ∈ output_fields.
Proof.
  intros [x Hx%lookup_arg_Some]. rewrite <-(output_args_fields o).
  apply list_elem_of_fmap. by exists (key, Some x).
Qed.

Lemma given_time o : given o "time" = None.
Proof.
  destruct (given o "time") eqn:E; [|done].
  assert (H : "time" ∈ output_fields) by (apply (given_output_field o); eauto).
  revert H. apply (bool_decide_unpack _). by vm_compute.
Qed.

(** ** The assignments to the matching row *)

Lemma set_if_given_restkey key x row :
  restkey (set_if_given key x row) = restkey row.
Proof. by destruct x. Qed.

Lemma set_if_given_lookup k x row key :
  fields (set_if_given k x row) !! key
  = if decide (k = key) then
      match x with Some v => Some (PFloat v) | None => fields row !! key end
    else fields row !! key.
Proof.
  destruct x as [v|]; simpl; [|by case_decide].
  apply lookup_insert.
Qed.

Lemma foldl_set_if_given_restkey (args : list (string * option pyfloat)) row :
  restkey (foldl (λ r kx, set_if_given kx.1 kx.2 r) row args) = restkey row.
Proof.
  revert row. induction args as [|[k x] args IH]; intros row; simpl; [done|].
  by rewrite IH, set_if_given_restkey.
Qed.

Lemma foldl_set_if_given_lookup (args : list (string * option pyfloat)) row key :
  NoDup args.*1 →
  fields (foldl (λ r kx, set_if_given kx.1 kx.2 r) row args) !! key
  = match lookup_arg args key with
    | Some v => Some (PFloat v)
    | None => fields row !! key
    end.
Proof.
  revert row. induction args as [|[k x] args IH]; intros row; simpl; [done|].
  intros [Hk Hnd]%NoDup_cons. rewrite IH by done.
  rewrite set_if_given_lookup. case_decide as Hkey.
  - subst k. rewrite lookup_arg_None by done. by destruct x.
  - done.
Qed.

Lemma assign_outputs_restkey o row :
  restkey (assign_outputs o row) = restkey row.
Proof. apply (foldl_set_if_given_restkey (output_args o)). Qed.

Lemma assign_outputs_lookup o row key :
  fields (assign_outputs o row) !! key
  = match given o key with
    | Some v => Some (PFloat v)
    | None => fields row !! key
    end.
Proof.
  apply (foldl_set_if_given_lookup (output_args o)).
  rewrite output_args_fields. apply output_fields_NoDup.
Qed.

(** ** The update loop *)

Lemma update_loop_not_found rows timestamp o :
  Forall has_time rows →
  Forall (λ row, ¬ key_is timestamp row) rows →
  update_loop rows timestamp o = Ok (rows, false).
Proof.
  induction rows as [|row rows IH]; simpl; [done|].
  intros [[c Hc] Htime]%Forall_cons [Hrow Hrows]%Forall_cons.
  unfold getitem. rewrite Hc. simpl.
  assert (eq_str c timestamp = false) as ->.
  { apply eq_str_false. intros ->. by apply Hrow. }
  by rewrite IH.
Qed.

Lemma update_loop_first_match rows timestamp o i row :
  Forall has_time rows →
  first_match rows timestamp i row →
  update_loop rows timestamp o = Ok (<[i := assign_outputs o row]> rows, true).
Proof.
  revert i. induction rows as [|r rows IH]; intros i Htime (Hi & Hkey & Hfirst).
  { by rewrite lookup_nil in Hi. }
  apply Forall_cons in Htime as [[c Hc] Htime].
  simpl. unfold getitem. rewrite Hc. simpl.
  destruct i as [|i]; simpl in *.
  - injection Hi as ->. unfold key_is in Hkey.
    rewrite Hc in Hkey. injection Hkey as ->.
    by rewrite (proj2 (eq_str_true _ _)).
  - assert (eq_str c timestamp = false) as ->.
    { apply eq_str_false. intros ->. by apply (Hfirst 0 r); [lia|done|]. }
    rewrite (IH i); [done|done|].
    split_and!; [done|done|].
    intros j row' Hj Hrow'. apply (Hfirst (S j) row'); [lia|done].
Qed.

(** The three ways the loop can end. *)
Lemma update_loop_cases rows timestamp o :
  (∃ i row, first_match rows timestamp i row ∧
     update_loop rows timestamp o = Ok (<[i := assign_outputs o row]> rows, true))
  ∨ (Forall has_time rows ∧ Forall (λ row, ¬ key_is timestamp row) rows ∧
     update_loop rows timestamp o = Ok (rows, false))
  ∨ (Exists (λ row, ¬ has_time row) rows ∧
     update_loop rows timestamp o = Raise (KeyError "time")).
Proof.
  induction rows as [|r rows IH]; simpl.
  { right; left. by repeat constructor. }
  unfold getitem. destruct (fields r !! "time") as [c|] eqn:Hc; simpl.
  - destruct (eq_str c timestamp) eqn:Heq.
    + left. exists 0, r. split; [|done].
      apply eq_str_true in Heq as ->.
      split_and!; [done|done|]. intros j ? ?. lia.
    + apply eq_str_false in Heq.
      assert (Hr : ¬ key_is timestamp r).
      { unfold key_is. rewrite Hc. by intros [= ->]. }
      destruct IH as [(i & row & (Hi & Hkey & Hfirst) & ->)
                     |[(Htime & Hno & ->)|(Hex & ->)]]; simpl.
      * left. exists (S i), row. split; [|done].
        split_and!; [done|done|].
        intros [|j] row' Hj; simpl; [by intros [= <-]|].
        apply Hfirst. lia.
      * right; left. split_and!; [|by constructor|done].
        constructor; [by eexists|done].
      * right; right. split; [by apply Exists_cons_tl|done].
  - right; right. split; [|done].
    apply Exists_cons_hd. unfold has_time. rewrite Hc. by intros [? ?].
Qed.

(** ** The check and the conversion of [DictWriter] *)

Lemma wrong_fields_empty header row :
  wrong_fields header row = ∅
  ↔ (∀ key, is_Some (fields row !! key) → key ∈ header) ∧ restkey row = None.
Proof.
  unfold wrong_fields. split.
  - intros Hempty. split.
    + intros key Hkey%elem_of_dom.
      destruct (decide (key ∈ header)) as [|Hnot]; [done|].
      assert (Some key ∈ (∅ : gset (option string))) as []%not_elem_of_empty.
      rewrite <-Hempty. apply elem_of_union_l, elem_of_map.
      exists key. split; [done|].
      apply elem_of_difference. by rewrite elem_of_list_to_set.
    + destruct (restkey row); [|done].
      assert (None ∈ (∅ : gset (option string))) as []%not_elem_of_empty.
      rewrite <-Hempty. apply elem_of_union_r. by apply elem_of_singleton.
  - intros [Hkeys ->]. apply set_eq. intros k.
    rewrite elem_of_union, elem_of_map. split; [|by intros ?%not_elem_of_empty].
    intros [(key & -> & [Hdom Hnot]%elem_of_difference)|?%not_elem_of_empty];
      [|done].
    destruct Hnot. rewrite elem_of_list_to_set. by apply Hkeys, elem_of_dom.
Qed.

Lemma wrong_fields_DictReader_next header rec :
  wrong_fields header (DictReader_next (pyfloat:=pyfloat) header rec) = ∅
  ↔ length rec ≤ length header.
Proof.
  rewrite wrong_fields_empty. split.
  - intros [_ Hrest]. unfold DictReader_next in Hrest.
    destruct (decide (length header < length rec)) as [Hlt|Hge]; [|lia].
    by rewrite bool_decide_eq_true_2 in Hrest.
  - intros Hlen. split.
    + intros key. by rewrite DictReader_next_has_key.
    + unfold DictReader_next.
      rewrite bool_decide_eq_false_2 by lia. by case_bool_decide.
Qed.

Lemma wrong_fields_assign_outputs header o row :
  wrong_fields header (assign_outputs o row) = ∅
  ↔ wrong_fields header row = ∅ ∧ ∀ key, is_Some (given o key) → key ∈ header.
Proof.
  rewrite !wrong_fields_empty, assign_outputs_restkey. split.
  - intros [Hkeys Hrest]. split_and!; [|done|].
    + intros key [c Hc]. apply Hkeys. rewrite assign_outputs_lookup.
      destruct (given o key); [by eexists|by rewrite Hc].
    + intros key [v Hv]. apply Hkeys. rewrite assign_outputs_lookup, Hv.
      by eexists.
  - intros [[Hkeys Hrest] Hgiven]. split; [|done].
    intros key. rewrite assign_outputs_lookup.
    destruct (given o key) eqn:Hv; [intros _; apply Hgiven; by eexists|].
    apply Hkeys.
Qed.

(** ** Writing rows *)

Section Writing.
Variable float_str : pyfloat → string.

Lemma render_length header row : length (render float_str header row) = length header.
Proof. unfold render. by rewrite !length_fmap. Qed.

Lemma render_ext header row1 row2 :
  (∀ key, key ∈ header →
     csv_str float_str (get_restval row1 key)
     = csv_str float_str (get_restval row2 key)) →
  render float_str header row1 = render float_str header row2.
Proof.
  intros Hext. unfold render. rewrite <-!list_fmap_compose.
  apply list_fmap_ext. intros i key Hi. apply Hext.
  by eapply list_elem_of_lookup_2.
Qed.

Lemma writerow_ok header row out :
  wrong_fields header row = ∅ →
  writerow float_str header row out = (Ok (), out ++ [render float_str header row]).
Proof.
  intros Hw. unfold writerow, dict_to_list. rewrite Hw.
  by rewrite bool_decide_eq_false_2 by (by intros []).
Qed.

Lemma writerow_fail header row out :
  wrong_fields header row ≠ ∅ →
  writerow float_str header row out
  = (Raise (ValueError (fields_not_in_fieldnames (wrong_fields header row))), out).
Proof.
  intros Hw. unfold writerow, dict_to_list.
  by rewrite bool_decide_eq_true_2.
Qed.

Lemma writeheader_ok header out :
  writeheader float_str header out = (Ok (), out ++ [header]).
Proof.
  unfold writeheader. rewrite writerow_ok.
  - do 3 f_equal. unfold render. rewrite <-list_fmap_compose.
    trans (id <$> header); [|apply list_fmap_id].
    apply list_fmap_ext. intros i key Hi. simpl. unfold get_restval. simpl.
    pose proof (dict_zip_fmap_lookup id header key) as Hz.
    rewrite list_fmap_id in Hz. rewrite Hz.
    by rewrite decide_True by (by eapply list_elem_of_lookup_2).
  - apply wrong_fields_empty. split; [|done]. simpl.
    intros key. by rewrite <-elem_of_dom, dict_zip_dom, elem_of_list_to_set.
Qed.

Lemma writerows_ok header rows out :
  Forall (λ row, wrong_fields header row = ∅) rows →
  writerows float_str header rows out
  = (Ok (), out ++ (render float_str header <$> rows)).
Proof.
  revert out. induction rows as [|row rows IH]; intros out; simpl.
  - by rewrite app_nil_r.
  - intros [Hrow Hrows]%Forall_cons. rewrite writerow_ok by done.
    rewrite IH by done. by rewrite <-app_assoc.
Qed.

Lemma writerows_fail header pre bad post out :
  Forall (λ row, wrong_fields header row = ∅) pre →
  wrong_fields header bad ≠ ∅ →
  writerows float_str header (pre ++ bad :: post) out
  = (Raise (ValueError (fields_not_in_fieldnames (wrong_fields header bad))),
     out ++ (render float_str header <$> pre)).
Proof.
  revert out. induction pre as [|row pre IH]; intros out; simpl.
  - intros _ Hbad. rewrite writerow_fail by done. by rewrite app_nil_r.
  - intros [Hrow Hpre]%Forall_cons Hbad. rewrite writerow_ok by done.
    rewrite IH by done. by rewrite <-app_assoc.
Qed.

Lemma write_back_ok header rows :
  Forall (λ row, wrong_fields header row = ∅) rows →
  write_back float_str (Some header) rows
  = (Ok (), header :: (render float_str header <$> rows)).
Proof.
  intros Hrows. unfold write_back. rewrite writeheader_ok. simpl.
  by rewrite writerows_ok.
Qed.

Lemma write_back_fail header pre bad post :
  Forall (λ row, wrong_fields header row = ∅) pre →
  wrong_fields header bad ≠ ∅ →
  write_back float_str (Some header) (pre ++ bad :: post)
  = (Raise (ValueError (fields_not_in_fieldnames (wrong_fields header bad))),
     header :: (render float_str header <$> pre)).
Proof.
  intros Hpre Hbad. unfold write_back. rewrite writeheader_ok. simpl.
  by rewrite writerows_fail.
Qed.

(** ** Reading back what was written *)

Lemma clean_wrong_fields header row :
  clean header row → wrong_fields header row = ∅.
Proof.
  intros (Hrest & Hdom & _). apply wrong_fields_empty. split; [|done].
  intros key. by rewrite <-elem_of_dom, Hdom, elem_of_list_to_set.
Qed.

Lemma DictReader_next_clean header rec :
  length rec = length header →
  clean header (DictReader_next (pyfloat:=pyfloat) header rec).
Proof.
  intros Hlen. rewrite DictReader_next_rect by done. split_and!; simpl.
  - done.
  - apply dict_zip_dom. lia.
  - apply dict_zip_is_str.
Qed.

Lemma filter_nonblank_rect header data :
  rectangular header data →
  Forall (λ rec, length rec = length header) (filter nonblank data).
Proof.
  unfold rectangular. induction 1 as [|rec data Hrec _ IH]; [constructor|].
  destruct rec as [|x rec].
  - by rewrite filter_cons_False by (by intros []).
  - rewrite filter_cons_True by done. constructor; [|done].
    by destruct Hrec.
Qed.

Lemma DictReader_rows_clean header data :
  rectangular header data →
  Forall (clean header) (DictReader_rows (pyfloat:=pyfloat) (header :: data)).
Proof.
  intros Hrect%filter_nonblank_rect. simpl. apply Forall_fmap.
  eapply Forall_impl; [done|]. intros rec. apply DictReader_next_clean.
Qed.

Lemma readback_restkey header row :
  restkey (DictReader_next (pyfloat:=pyfloat) header (render float_str header row))
  = None.
Proof. by rewrite DictReader_next_rect by apply render_length. Qed.

Lemma readback_lookup header row key :
  dom (fields row) = list_to_set header →
  fields (DictReader_next (pyfloat:=pyfloat) header
            (render float_str header row)) !! key
  = (λ c, PStr (csv_str float_str c)) <$> fields row !! key.
Proof.
  intros Hdom. rewrite DictReader_next_rect by apply render_length. simpl.
  unfold render. rewrite <-list_fmap_compose, dict_zip_fmap_lookup.
  destruct (decide (key ∈ header)) as [Hin|Hin].
  - assert (is_Some (fields row !! key)) as [c Hc].
    { by rewrite <-elem_of_dom, Hdom, elem_of_list_to_set. }
    simpl. unfold get_restval. by rewrite Hc.
  - assert (fields row !! key = None) as ->; [|done].
    by rewrite <-not_elem_of_dom, Hdom, elem_of_list_to_set.
Qed.

Lemma readback_clean header row :
  clean header row →
  DictReader_next header (render float_str header row) = row.
Proof.
  intros (Hrest & Hdom & Hstr). destruct row as [d r]. simpl in *. subst r.
  rewrite DictReader_next_rect by apply render_length. f_equal.
  apply map_eq. intros key.
  pose proof (readback_lookup header (RowDict d None) key Hdom) as Hrb.
  rewrite DictReader_next_rect in Hrb by apply render_length. simpl in Hrb.
  rewrite Hrb. destruct (d !! key) as [c|] eqn:Hc; [|done]. simpl.
  by destruct (Hstr _ _ Hc) as [s ->].
Qed.

Lemma filter_nonblank_render header rows :
  header ≠ [] →
  filter nonblank (render float_str header <$> rows)
  = render float_str header <$> rows.
Proof.
  intros Hne. induction rows as [|row rows IH]; [done|]. rewrite fmap_cons.
  rewrite filter_cons_True; [by rewrite IH|].
  pose proof (render_length header row) as Hlen.
  destruct (render float_str header row); [|done].
  by destruct header.
Qed.

Lemma DictReader_rows_render header rows :
  header ≠ [] →
  DictReader_rows (pyfloat:=pyfloat)
    (header :: (render float_str header <$> rows))
  = (λ row, DictReader_next header (render float_str header row)) <$> rows.
Proof.
  intros Hne. simpl. rewrite filter_nonblank_render by done.
  by rewrite <-list_fmap_compose.
Qed.

(** ** [write_timeseries] on a table without ragged lines *)

Lemma given_in_header_iff o header :
  given_in_header o header ↔ ∀ key, is_Some (given o key) → key ∈ header.
Proof.
  split.
  - intros Hall key [v Hv]. by eapply given_in_header_elem.
  - intros Hall. apply Forall_forall. intros [k x] Hin Hx. simpl in *.
    apply Hall. unfold given. rewrite (lookup_arg_elem _ k x); [done| |done].
    rewrite output_args_fields. apply output_fields_NoDup.
Qed.

Lemma DictReader_rows_has_time header data :
  "time" ∈ header →
  Forall has_time (DictReader_rows (pyfloat:=pyfloat) (header :: data)).
Proof.
  intros Htime. apply Forall_forall. intros row Hrow.
  by apply (DictReader_rows_has_key header data "time" row Hrow).
Qed.

Lemma first_match_time header data timestamp i row :
  first_match (DictReader_rows (header :: data)) timestamp i row →
  "time" ∈ header.
Proof.
  intros (Hi%list_elem_of_lookup_2 & Hkey & _).
  apply (DictReader_rows_has_key header data "time" row Hi).
  unfold key_is in Hkey. by rewrite Hkey.
Qed.

Lemma first_match_split rows timestamp i row (x : rowdict pyfloat) :
  first_match rows timestamp i row →
  <[i := x]> rows = take i rows ++ x :: drop (S i) rows ∧
  Forall (λ row, ¬ key_is timestamp row) (take i rows).
Proof.
  intros (Hi & _ & Hfirst). split.
  - apply insert_take_drop. by eapply lookup_lt_Some.
  - apply Forall_lookup. intros j r Hj.
    assert (j < i) by (apply lookup_lt_Some in Hj; rewrite length_take in Hj; lia).
    rewrite lookup_take_lt in Hj by done. by eapply Hfirst.
Qed.

Lemma write_timeseries_found fs csv_file timestamp o header data i row :
  fs !! csv_file = Some (header :: data) →
  rectangular header data →
  given_in_header o header →
  first_match (DictReader_rows (header :: data)) timestamp i row →
  write_timeseries float_str fs csv_file timestamp o
  = (Ok (),
     <[csv_file := header :: (render float_str header <$>
         <[i := assign_outputs o row]> (DictReader_rows (header :: data)))]> fs).
Proof.
  intros Hfs Hrect Hgiven Hfirst. unfold write_timeseries. rewrite Hfs.
  pose proof (first_match_time _ _ _ _ _ Hfirst) as Htime.
  rewrite (update_loop_first_match _ _ _ i row)
    by (by try apply DictReader_rows_has_time).
  cbn [negb DictReader_fieldnames head]. rewrite write_back_ok; [done|].
  pose proof (DictReader_rows_clean _ _ Hrect) as Hclean.
  apply Forall_insert.
  - eapply Forall_impl; [done|]. apply clean_wrong_fields.
  - apply wrong_fields_assign_outputs. split.
    + apply clean_wrong_fields. destruct Hfirst as [Hi _].
      by eapply Forall_lookup_1.
    + by apply given_in_header_iff.
Qed.

(** The rows read back from the rewritten file. *)
Lemma readback_rows header data timestamp o i row :
  rectangular header data →
  given_in_header o header →
  first_match (DictReader_rows (header :: data)) timestamp i row →
  let rows := DictReader_rows (pyfloat:=pyfloat) (header :: data) in
  let rows' := DictReader_rows (pyfloat:=pyfloat)
    (header :: (render float_str header <$> <[i := assign_outputs o row]> rows)) in
  length rows' = length rows ∧
  (∀ j, j ≠ i → rows' !! j = rows !! j) ∧
  ∃ row', rows' !! i = Some row' ∧ restkey row' = None ∧
    ∀ key, fields row' !! key
           = match given o key with
             | Some v => Some (PStr (float_str v))
             | None => fields row !! key
             end.
Proof.
  intros Hrect Hgiven Hfirst rows rows'.
  pose proof (first_match_time _ _ _ _ _ Hfirst) as Htime.
  assert (Hne : header ≠ []) by (by intros ->; apply elem_of_nil in Htime).
  pose proof (DictReader_rows_clean _ _ Hrect) as Hclean. fold rows in Hclean.
  destruct Hfirst as (Hi & Hkey & Hfirst). fold rows in Hi.
  subst rows'. rewrite DictReader_rows_render by done. fold rows.
  split_and!.
  - by rewrite length_fmap, length_insert.
  - intros j Hj. rewrite list_lookup_fmap, list_lookup_insert_ne by done.
    destruct (rows !! j) as [r|] eqn:Hr; [simpl|done].
    f_equal. apply readback_clean. by eapply Forall_lookup_1.
  - eexists. split_and!.
    + rewrite list_lookup_fmap, list_lookup_insert_eq
        by (by eapply lookup_lt_Some).
      done.
    + apply readback_restkey.
    + intros key. destruct (Forall_lookup_1 _ _ _ _ Hclean Hi) as (_ & Hdom & Hstr).
      rewrite DictReader_next_rect by apply render_length. simpl.
      unfold render. rewrite <-list_fmap_compose, dict_zip_fmap_lookup.
      simpl. unfold get_restval. rewrite assign_outputs_lookup.
      destruct (decide (key ∈ header)) as [Hin|Hin].
      * destruct (given o key); [done|].
        assert (is_Some (fields row !! key)) as [c Hc].
        { by rewrite <-elem_of_dom, Hdom, elem_of_list_to_set. }
        rewrite Hc. simpl. by destruct (Hstr _ _ Hc) as [s ->].
      * destruct (given o key) eqn:Hv.
        -- destruct Hin. by eapply given_in_header_elem.
        -- assert (fields row !! key = None) as ->; [|done].
           by rewrite <-not_elem_of_dom, Hdom, elem_of_list_to_set.
Qed.

(** The only exception the [with open(csv_file, 'w')] block raises for a
    file with a header is the one of [dict_to_list]. *)
Lemma writerows_result header rows out :
  (writerows float_str header rows out).1 = Ok () ∨
  ∃ w, (writerows float_str header rows out).1
       = Raise (ValueError (fields_not_in_fieldnames w)).
Proof.
  revert out. induction rows as [|row rows IH]; intros out; simpl; [by left|].
  destruct (decide (wrong_fields header row = ∅)) as [Hw|Hw].
  - rewrite writerow_ok by done. apply IH.
  - rewrite writerow_fail by done. right. by eexists.
Qed.

Lemma write_back_result header rows :
  (write_back float_str (Some header) rows).1 = Ok () ∨
  ∃ w, (write_back float_str (Some header) rows).1
       = Raise (ValueError (fields_not_in_fieldnames w)).
Proof.
  unfold write_back. rewrite writeheader_ok. simpl. apply writerows_result.
Qed.

(** The not-found error leaves the store as it was. *)
Lemma write_timeseries_no_match fs csv_file timestamp o header data :
  fs !! csv_file = Some (header :: data) →
  "time" ∈ header →
  Forall (λ row, ¬ key_is timestamp row) (DictReader_rows (header :: data)) →
  write_timeseries float_str fs csv_file timestamp o
  = (Raise (ValueError (timestamp_not_found timestamp csv_file)), fs).
Proof.
  intros Hfs Htime Hno. unfold write_timeseries. rewrite Hfs.
  by rewrite update_loop_not_found by (by try apply DictReader_rows_has_time).
Qed.

Lemma write_timeseries_not_found_inv fs csv_file timestamp o timestamp' csv_file' :
  (write_timeseries float_str fs csv_file timestamp o).1
  = Raise (ValueError (timestamp_not_found timestamp' csv_file')) →
  (write_timeseries float_str fs csv_file timestamp o).2 = fs ∧
  ∃ records, fs !! csv_file = Some records ∧
    Forall (λ row, ¬ key_is timestamp row) (DictReader_rows records).
Proof.
  unfold write_timeseries. destruct (fs !! csv_file) as [records|]; [|done].
  destruct (update_loop_cases (DictReader_rows records) timestamp o)
    as [(i & row & Hfirst & ->)|[(Htime & Hno & ->)|(Hex & ->)]];
    cbn [negb]; [|by eauto|done].
  destruct records as [|header data].
  { by destruct Hfirst as [Hi _]. }
  cbn [DictReader_fieldnames head].
  destruct (write_back_result header
    (<[i:=assign_outputs o row]> (DictReader_rows (header :: data))))
    as [Hr|[w Hr]];
    destruct (write_back _ _ _) as [r out]; simpl in *; by subst r.
Qed.

(** C1: a write to an existing timestamp of a table without ragged lines,
    with every supplied column in the header, succeeds and replaces the one
    file; reading the new file back gives the same header in the same
    order and the same rows, except that in the first row whose key is the
    timestamp each supplied column holds the text of the supplied value.
    Columns not supplied and all other rows are the strings they were. *)
Theorem write_timeseries_frame fs csv_file timestamp o header data i row :
  fs !! csv_file = Some (header :: data) →
  rectangular header data →
  given_in_header o header →
  first_match (DictReader_rows (header :: data)) timestamp i row →
  ∃ written,
    write_timeseries float_str fs csv_file timestamp o
    = (Ok (), <[csv_file := written]> fs) ∧
    DictReader_fieldnames written = Some header ∧
    length (DictReader_rows (pyfloat:=pyfloat) written)
    = length (DictReader_rows (pyfloat:=pyfloat) (header :: data)) ∧
    (∀ j, j ≠ i →
       DictReader_rows (pyfloat:=pyfloat) written !! j
       = DictReader_rows (header :: data) !! j) ∧
    ∃ row', DictReader_rows written !! i = Some row' ∧ restkey row' = None ∧
      ∀ key, fields row' !! key
             = match given o key with
               | Some v => Some (PStr (float_str v))
               | None => fields row !! key
               end.
Proof.
  intros Hfs Hrect Hgiven Hfirst. eexists. split.
  { by eapply write_timeseries_found. }
  split; [done|]. by eapply readback_rows.
Qed.

(** C3: on a table with a [time] column the write raises the not-found
    [ValueError] exactly when no row has the timestamp as its key. *)
Theorem write_timeseries_not_found_iff fs csv_file timestamp o header data :
  fs !! csv_file = Some (header :: data) →
  "time" ∈ header →
  (write_timeseries float_str fs csv_file timestamp o).1
  = Raise (ValueError (timestamp_not_found timestamp csv_file))
  ↔ Forall (λ row, ¬ key_is timestamp row) (DictReader_rows (header :: data)).
Proof.
  intros Hfs Htime. split.
  - intros (_ & records & Hrec & Hno)%write_timeseries_not_found_inv.
    rewrite Hfs in Hrec. by injection Hrec as <-.
  - intros Hno. by rewrite (write_timeseries_no_match _ _ _ _ header data).
Qed.

(** C10: when no row of a table with a [time] column has the timestamp as
    its key, the write raises the not-found error and the store of files is
    the one it started with; and whenever the write ends in the not-found
    error, for any store at all, the store is unchanged. *)
Theorem write_timeseries_not_found_atomic fs csv_file timestamp o :
  (∀ header data,
     fs !! csv_file = Some (header :: data) →
     "time" ∈ header →
     Forall (λ row, ¬ key_is timestamp row) (DictReader_rows (header :: data)) →
     write_timeseries float_str fs csv_file timestamp o
     = (Raise (ValueError (timestamp_not_found timestamp csv_file)), fs)) ∧
  (∀ timestamp' csv_file',
     (write_timeseries float_str fs csv_file timestamp o).1
     = Raise (ValueError (timestamp_not_found timestamp' csv_file')) →
     (write_timeseries float_str fs csv_file timestamp o).2 = fs).
Proof.
  split.
  - intros header data. apply write_timeseries_no_match.
  - intros timestamp' csv_file' H.
    by apply write_timeseries_not_found_inv in H as [? _].
Qed.

Lemma rectangular_render header rows :
  rectangular header (render float_str header <$> rows).
Proof.
  apply Forall_fmap, Forall_forall. intros row _. right. apply render_length.
Qed.

(** One write keeps the header, the shape and the keys. *)
Lemma write_timeseries_keys fs csv_file timestamp o header data :
  fs !! csv_file = Some (header :: data) →
  rectangular header data →
  given_in_header o header →
  ∃ data',
    (write_timeseries float_str fs csv_file timestamp o).2 !! csv_file
    = Some (header :: data') ∧
    rectangular header data' ∧
    row_keys (pyfloat:=pyfloat) (header :: data') = row_keys (header :: data).
Proof.
  intros Hfs Hrect Hgiven.
  destruct (update_loop_cases (DictReader_rows (header :: data)) timestamp o)
    as [(i & row & Hfirst & _)|[(_ & _ & Hupd)|(_ & Hupd)]].
  - rewrite (write_timeseries_found _ _ _ _ _ _ _ _ Hfs Hrect Hgiven Hfirst).
    eexists. split; [apply lookup_insert_eq|]. split; [apply rectangular_render|].
    destruct (readback_rows _ _ _ _ _ _ Hrect Hgiven Hfirst)
      as (Hlen & Hother & row' & Hi' & _ & Hrow').
    unfold row_keys. apply list_eq. intros j. rewrite !list_lookup_fmap.
    destruct (decide (j = i)) as [->|Hj]; [|by rewrite Hother].
    destruct Hfirst as (Hi & _). rewrite Hi, Hi'. simpl.
    by rewrite Hrow', given_time.
  - exists data. unfold write_timeseries. rewrite Hfs, Hupd. by simpl.
  - exists data. unfold write_timeseries. rewrite Hfs, Hupd. by simpl.
Qed.

(** C4: after any sequence of writes on a table without ragged lines, each
    supplying only columns of the header, the file has the same header and
    its rows have the same keys, in the same order, as before the first
    write: no write adds a row, removes one or changes a key. *)
Theorem write_all_keeps_row_keys fs csv_file calls header data :
  fs !! csv_file = Some (header :: data) →
  rectangular header data →
  Forall (λ call : string * outputs pyfloat, given_in_header call.2 header)
    calls →
  ∃ data',
    write_all float_str fs csv_file calls !! csv_file = Some (header :: data') ∧
    row_keys (pyfloat:=pyfloat) (header :: data') = row_keys (header :: data).
Proof.
  intros Hfs Hrect Hcalls. revert fs data Hfs Hrect.
  induction Hcalls as [|[timestamp o] calls Hgiven _ IH];
    intros fs data Hfs Hrect; simpl.
  - by exists data.
  - destruct (write_timeseries_keys fs csv_file timestamp o header data)
      as (data1 & Hfs1 & Hrect1 & Hkeys1); [done..|].
    destruct (IH _ _ Hfs1 Hrect1) as (data' & Hfs' & Hkeys').
    exists data'. split; [done|]. by rewrite Hkeys'.
Qed.

(** C5: on a table without ragged lines, a second write with the same
    timestamp and the same values leaves every file as the first write
    left it, whether the first write succeeded or raised. *)
Theorem write_timeseries_idempotent fs csv_file timestamp o header data :
  fs !! csv_file = Some (header :: data) →
  rectangular header data →
  (write_timeseries float_str
     (write_timeseries float_str fs csv_file timestamp o).2
     csv_file timestamp o).2
  = (write_timeseries float_str fs csv_file timestamp o).2.
Proof.
  intros Hfs Hrect.
  set (rows := DictReader_rows (pyfloat:=pyfloat) (header :: data)).
  pose proof (DictReader_rows_clean _ _ Hrect) as Hclean. fold rows in Hclean.
  assert (Hsame : ∀ r, write_timeseries float_str fs csv_file timestamp o = (r, fs) →
    (write_timeseries float_str
       (write_timeseries float_str fs csv_file timestamp o).2
       csv_file timestamp o).2
    = (write_timeseries float_str fs csv_file timestamp o).2).
  { intros r Hr. rewrite Hr. simpl. by rewrite Hr. }
  destruct (update_loop_cases rows timestamp o)
    as [(i & row & Hfirst & Hupd)|[(_ & _ & Hupd)|(_ & Hupd)]].
  2,3: eapply Hsame; unfold write_timeseries; fold rows;
       rewrite Hfs; fold rows; rewrite Hupd; done.
  pose proof (first_match_time _ _ _ _ _ Hfirst) as Htime.
  assert (Hne : header ≠ []) by (by intros ->; apply elem_of_nil in Htime).
  destruct (decide (wrong_fields header (assign_outputs o row) = ∅)) as [Hw|Hw].
  - (* the first write succeeds *)
    apply wrong_fields_assign_outputs in Hw as [_ Hgiven%given_in_header_iff].
    rewrite (write_timeseries_found _ _ _ _ _ _ _ _ Hfs Hrect Hgiven Hfirst).
    fold rows. simpl.
    destruct (readback_rows _ _ _ _ _ _ Hrect Hgiven Hfirst)
      as (Hlen & Hother & row1 & Hi1 & _ & Hrow1).
    fold rows in Hlen, Hother, Hi1.
    destruct Hfirst as (Hi & Hkey & Hfirst).  fold rows in Hi, Hfirst.
    rewrite (write_timeseries_found _ _ _ _ header
               (render float_str header <$> <[i:=assign_outputs o row]> rows)
               i row1).
    + cbn [snd]. rewrite insert_insert_eq. do 2 f_equal.
      apply list_eq. intros j. rewrite !list_lookup_fmap.
      destruct (decide (j = i)) as [->|Hj].
      * rewrite !list_lookup_insert_eq
          by (rewrite ?Hlen; by eapply lookup_lt_Some).
        simpl. f_equal. apply render_ext. intros key _.
        unfold get_restval. rewrite !assign_outputs_lookup.
        destruct (given o key) eqn:Hv; [done|].
        by rewrite Hrow1, Hv.
      * rewrite !list_lookup_insert_ne by done. by rewrite Hother.
    + apply lookup_insert_eq.
    + apply rectangular_render.
    + done.
    + split_and!.
      * done.
      * unfold key_is. by rewrite Hrow1, given_time.
      * intros j row' Hj Hrow'. rewrite Hother in Hrow' by lia.
        by eapply Hfirst.
  - (* the first write fails on the matching row, after the rows before it *)
    destruct (first_match_split rows timestamp i row (assign_outputs o row) Hfirst)
      as [Hsplit Hbefore].
    assert (Hfirst_write : write_timeseries float_str fs csv_file timestamp o
      = (Raise (ValueError (fields_not_in_fieldnames
                  (wrong_fields header (assign_outputs o row)))),
         <[csv_file := header :: (render float_str header <$> take i rows)]> fs)).
    { unfold write_timeseries. rewrite Hfs. fold rows. rewrite Hupd.
      cbn [negb DictReader_fieldnames head]. rewrite Hsplit.
      rewrite write_back_fail; [done| |done].
      apply Forall_take. eapply Forall_impl; [done|]. apply clean_wrong_fields. }
    rewrite Hfirst_write. simpl.
    rewrite (write_timeseries_no_match _ _ _ _ header
               (render float_str header <$> take i rows)); [done| |done|].
    + apply lookup_insert_eq.
    + rewrite DictReader_rows_render by done.
      apply Forall_fmap, Forall_forall. intros r Hr. simpl.
      rewrite readback_clean.
      * by eapply (proj1 (Forall_forall _ _) Hbefore).
      * apply (Forall_take _ i) in Hclean.
        by eapply (proj1 (Forall_forall _ _) Hclean).
Qed.

(** A row with a key outside the header stops [writerows]. *)
Lemma writerows_Exists_wrong header rows out :
  Exists (λ row, wrong_fields header row ≠ ∅) rows →
  ∃ w out', writerows float_str header rows out
            = (Raise (ValueError (fields_not_in_fieldnames w)), out').
Proof.
  revert out. induction rows as [|row rows IH]; intros out Hex.
  { by apply Exists_nil in Hex. }
  simpl. destruct (decide (wrong_fields header row = ∅)) as [Hw|Hw].
  - rewrite writerow_ok by done. apply IH.
    by apply Exists_cons in Hex as [?|?].
  - rewrite writerow_fail by done. by eauto.
Qed.

Lemma write_timeseries_missing_column fs csv_file timestamp o header data
    key v i row :
  fs !! csv_file = Some (header :: data) →
  given o key = Some v →
  key ∉ header →
  first_match (DictReader_rows (header :: data)) timestamp i row →
  ∃ w out, write_timeseries float_str fs csv_file timestamp o
           = (Raise (ValueError (fields_not_in_fieldnames w)),
              <[csv_file := out]> fs).
Proof.
  intros Hfs Hv Hkey Hfirst. unfold write_timeseries. rewrite Hfs.
  pose proof (first_match_time _ _ _ _ _ Hfirst) as Htime.
  rewrite (update_loop_first_match _ _ _ i row)
    by (by try apply DictReader_rows_has_time).
  cbn [negb DictReader_fieldnames head]. unfold write_back.
  rewrite writeheader_ok.
  edestruct (writerows_Exists_wrong header
    (<[i:=assign_outputs o row]> (DictReader_rows (header :: data)))
    ([] ++ [header])) as (w & out & ->); [|by eauto].
  apply Exists_exists. exists (assign_outputs o row). split.
  - eapply list_elem_of_lookup_2, list_lookup_insert_eq.
    destruct Hfirst as [Hi _]. by eapply lookup_lt_Some.
  - intros [_ Hgiven]%wrong_fields_assign_outputs.
    apply Hkey, Hgiven. by eexists.
Qed.

Lemma write_timeseries_no_time fs csv_file timestamp o header data :
  fs !! csv_file = Some (header :: data) →
  "time" ∉ header →
  DictReader_rows (pyfloat:=pyfloat) (header :: data) ≠ [] →
  write_timeseries float_str fs csv_file timestamp o
  = (Raise (KeyError "time"), fs).
Proof.
  intros Hfs Htime Hrows. unfold write_timeseries. rewrite Hfs.
  destruct (DictReader_rows (header :: data)) as [|row rows] eqn:E; [done|].
  assert (fields row !! "time" = None) as Hnone.
  { apply eq_None_not_Some.
    rewrite (DictReader_rows_has_key header data "time" row); [done|].
    rewrite E. apply list_elem_of_here. }
  simpl. unfold getitem. by rewrite Hnone.
Qed.

(** ** What a write does to the store, whatever the file holds *)

(** [writerows] writes the rows up to the first one it rejects. *)
Lemma writerows_prefix header rows out :
  ∃ n, n ≤ length rows ∧
    (writerows float_str header rows out).2
    = out ++ (render float_str header <$> take n rows).
Proof.
  revert out. induction rows as [|row rows IH]; intros out; simpl.
  { exists 0. by rewrite app_nil_r. }
  destruct (decide (wrong_fields header row = ∅)) as [Hw|Hw].
  - rewrite writerow_ok by done.
    destruct (IH (out ++ [render float_str header row])) as (n & Hn & ->).
    exists (S n). split; [lia|]. by rewrite <-app_assoc.
  - rewrite writerow_fail by done. exists 0. split; [lia|].
    simpl. by rewrite app_nil_r.
Qed.

Lemma write_timeseries_store fs csv_file timestamp o :
  (write_timeseries float_str fs csv_file timestamp o).2 = fs ∨
  ∃ records out,
    fs !! csv_file = Some records ∧
    (write_timeseries float_str fs csv_file timestamp o).2
    = <[csv_file := out]> fs.
Proof.
  unfold write_timeseries.
  destruct (fs !! csv_file) as [records|] eqn:Hfs; [|by left].
  destruct (update_loop _ _ _) as [[rows' [|]]|e]; simpl; [|by left..].
  destruct (write_back _ _ _) as [r out]. right. by eauto.
Qed.

Lemma write_timeseries_shape fs csv_file timestamp o header data :
  fs !! csv_file = Some (header :: data) →
  (write_timeseries float_str fs csv_file timestamp o).2 = fs ∨
  ∃ i row n,
    first_match (DictReader_rows (header :: data)) timestamp i row ∧
    (write_timeseries float_str fs csv_file timestamp o).2
    = <[csv_file := header :: (render float_str header <$>
          take n (<[i := assign_outputs o row]>
                    (DictReader_rows (header :: data))))]> fs.
Proof.
  intros Hfs. unfold write_timeseries. rewrite Hfs.
  destruct (update_loop_cases (DictReader_rows (header :: data)) timestamp o)
    as [(i & row & Hfirst & ->)|[(_ & _ & ->)|(_ & ->)]]; [|by left..].
  right. exists i, row. cbn [negb DictReader_fieldnames head].
  unfold write_back. rewrite writeheader_ok. simpl.
  destruct (writerows_prefix header
    (<[i:=assign_outputs o row]> (DictReader_rows (header :: data))) [header])
    as (n & _ & Hn).
  exists n. split; [done|].
  destruct (writerows _ _ _ _) as [r out]. simpl in *. by subst out.
Qed.

(** X1: a write changes no file but the one it is given and neither
    creates nor removes a file, whatever it returns or raises. *)
Theorem write_timeseries_other_files fs csv_file timestamp o :
  dom (write_timeseries float_str fs csv_file timestamp o).2 = dom fs ∧
  ∀ path, path ≠ csv_file →
    (write_timeseries float_str fs csv_file timestamp o).2 !! path = fs !! path.
Proof.
  destruct (write_timeseries_store fs csv_file timestamp o)
    as [->|(records & out & Hfs & ->)]; [done|].
  split.
  - rewrite dom_insert_L.
    assert (csv_file ∈ dom fs) by (apply elem_of_dom; by eexists).
    set_solver.
  - intros path Hpath. by rewrite lookup_insert_ne.
Qed.

(** X2: whatever the file holds and whatever the write returns, the file
    keeps its header and never has more rows than before; and if the write
    touched the file at all, every record of it now has exactly one field
    per column (short rows are padded, blank lines are gone). *)
Theorem write_timeseries_never_adds_rows fs csv_file timestamp o header data :
  fs !! csv_file = Some (header :: data) →
  ∃ data',
    (write_timeseries float_str fs csv_file timestamp o).2 !! csv_file
    = Some (header :: data') ∧
    length (DictReader_rows (pyfloat:=pyfloat) (header :: data'))
    ≤ length (DictReader_rows (pyfloat:=pyfloat) (header :: data)) ∧
    ((write_timeseries float_str fs csv_file timestamp o).2 = fs ∨
     Forall (λ rec, length rec = length header) data').
Proof.
  intros Hfs.
  destruct (write_timeseries_shape fs csv_file timestamp o header data Hfs)
    as [Hsame|(i & row & n & Hfirst & Hw)].
  - exists data. rewrite Hsame. split_and!; [done|done|by left].
  - rewrite Hw. eexists. split; [apply lookup_insert_eq|].
    pose proof (first_match_time _ _ _ _ _ Hfirst) as Htime.
    assert (Hne : header ≠ []) by (by intros ->; apply elem_of_nil in Htime).
    split.
    + rewrite DictReader_rows_render by done.
      rewrite length_fmap, length_take, length_insert. lia.
    + right. apply Forall_fmap, Forall_forall. intros r _. apply render_length.
Qed.

(** X3: on a table without ragged lines, a write that supplies a value for
    a column outside the header and finds its row raises the [ValueError]
    of [DictWriter], which names that column, and leaves the file cut
    short: the header and the rows before the matching one remain, the
    matching row and every row after it are gone. *)
Theorem write_timeseries_failed_write_truncates fs csv_file timestamp o
    header data i row key v :
  fs !! csv_file = Some (header :: data) →
  rectangular header data →
  first_match (DictReader_rows (header :: data)) timestamp i row →
  given o key = Some v →
  key ∉ header →
  ∃ w written,
    write_timeseries float_str fs csv_file timestamp o
    = (Raise (ValueError (fields_not_in_fieldnames w)),
       <[csv_file := written]> fs) ∧
    Some key ∈ w ∧
    DictReader_fieldnames written = Some header ∧
    DictReader_rows (pyfloat:=pyfloat) written
    = take i (DictReader_rows (header :: data)).
Proof.
  intros Hfs Hrect Hfirst Hv Hkey.
  set (rows := DictReader_rows (pyfloat:=pyfloat) (header :: data)).
  pose proof (DictReader_rows_clean _ _ Hrect) as Hclean. fold rows in Hclean.
  pose proof (first_match_time _ _ _ _ _ Hfirst) as Htime.
  assert (Hne : header ≠ []) by (by intros ->; apply elem_of_nil in Htime).
  destruct (first_match_split rows timestamp i row (assign_outputs o row) Hfirst)
    as [Hsplit _].
  exists (wrong_fields header (assign_outputs o row)),
         (header :: (render float_str header <$> take i rows)).
  split_and!.
  - unfold write_timeseries. rewrite Hfs. fold rows.
    rewrite (update_loop_first_match _ _ _ i row)
      by (by try apply DictReader_rows_has_time).
    cbn [negb DictReader_fieldnames head]. rewrite Hsplit.
    rewrite write_back_fail; [done| |].
    + apply Forall_take. eapply Forall_impl; [done|]. apply clean_wrong_fields.
    + intros [_ Hgiven]%wrong_fields_assign_outputs.
      apply Hkey, Hgiven. by eexists.
  - unfold wrong_fields. apply elem_of_union_l, elem_of_map.
    exists key. split; [done|]. apply elem_of_difference. split.
    + apply elem_of_dom. rewrite assign_outputs_lookup, Hv. by eexists.
    + by rewrite elem_of_list_to_set.
  - done.
  - rewrite DictReader_rows_render by done.
    rewrite <-(list_fmap_id (take i rows)) at 2.
    apply list_fmap_ext. intros j r Hr. simpl. apply readback_clean.
    apply (Forall_take _ i) in Hclean. by eapply Forall_lookup_1.
Qed.

(** X4: a line with more fields than the header makes every write that
    finds its row raise the [ValueError] of [DictWriter], after the file
    has been opened for writing. *)
Theorem write_timeseries_long_row fs csv_file timestamp o header data i row :
  fs !! csv_file = Some (header :: data) →
  Exists (λ rec, length header < length rec) data →
  first_match (DictReader_rows (header :: data)) timestamp i row →
  ∃ w out,
    write_timeseries float_str fs csv_file timestamp o
    = (Raise (ValueError (fields_not_in_fieldnames w)), <[csv_file := out]> fs).
Proof.
  intros Hfs Hlong Hfirst. unfold write_timeseries. rewrite Hfs.
  pose proof (first_match_time _ _ _ _ _ Hfirst) as Htime.
  rewrite (update_loop_first_match _ _ _ i row)
    by (by try apply DictReader_rows_has_time).
  cbn [negb DictReader_fieldnames head]. unfold write_back.
  rewrite writeheader_ok.
  edestruct (writerows_Exists_wrong header
    (<[i:=assign_outputs o row]> (DictReader_rows (header :: data)))
    ([] ++ [header])) as (w & out & ->); [|by eauto].
  apply Exists_exists in Hlong as (rec & Hrec & Hlen).
  assert (Hin : DictReader_next header rec
                ∈ DictReader_rows (pyfloat:=pyfloat) (header :: data)).
  { simpl. apply list_elem_of_fmap. exists rec. split; [done|].
    apply list_elem_of_filter. split; [|done]. destruct rec; [simpl in Hlen; lia|done]. }
  apply list_elem_of_lookup in Hin as [j Hj].
  assert (Hbad : wrong_fields header (DictReader_next (pyfloat:=pyfloat) header rec) ≠ ∅).
  { rewrite wrong_fields_DictReader_next. lia. }
  apply Exists_exists. destruct (decide (j = i)) as [->|Hji].
  - exists (assign_outputs o row). split.
    + eapply list_elem_of_lookup_2, list_lookup_insert_eq.
      by eapply lookup_lt_Some.
    + destruct Hfirst as [Hi _]. rewrite Hi in Hj. injection Hj as ->.
      by intros [? _]%wrong_fields_assign_outputs.
  - exists (DictReader_next header rec). split; [|done].
    eapply list_elem_of_lookup_2. by rewrite list_lookup_insert_ne.
Qed.


(** ** The records of the rewritten file *)

Lemma foldl_zip_lookup_notin d (l : list (string * string)) key :
  key ∉ l.*1 →
  foldl (λ d kv, <[kv.1 := PStr kv.2]> d) d l !! key = d !! key.
Proof.
  revert d. induction l as [|[k v] l IH]; intros d Hnot; simpl; [done|].
  simpl in Hnot. apply not_elem_of_cons in Hnot as [Hne Hnot].
  rewrite IH by done. by rewrite lookup_insert_ne.
Qed.

Lemma foldl_zip_lookup_NoDup d (l : list (string * string)) key c :
  NoDup l.*1 → (key, c) ∈ l →
  foldl (λ d kv, <[kv.1 := PStr kv.2]> d) d l !! key = Some (PStr c).
Proof.
  revert d. induction l as [|[k v] l IH]; intros d Hnd Hin; simpl.
  { by apply elem_of_nil in Hin. }
  simpl in Hnd. apply NoDup_cons in Hnd as [Hk Hnd].
  apply elem_of_cons in Hin as [[= -> ->]|Hin].
  - rewrite foldl_zip_lookup_notin by done. apply lookup_insert_eq.
  - by apply IH.
Qed.

Lemma dict_zip_NoDup_lookup header rec n key c :
  NoDup header → length rec = length header →
  header !! n = Some key → rec !! n = Some c →
  dict_zip (pyfloat:=pyfloat) header rec !! key = Some (PStr c).
Proof.
  intros Hnd Hlen Hkey Hc. unfold dict_zip.
  apply foldl_zip_lookup_NoDup.
  - rewrite fst_zip by lia. done.
  - eapply list_elem_of_lookup_2. unfold zip. apply lookup_zip_with_Some.
    by eauto.
Qed.

Lemma render_assign_DictReader_next header rec o :
  NoDup header → length rec = length header →
  render float_str header (assign_outputs o (DictReader_next header rec))
  = patch_record float_str o header rec.
Proof.
  intros Hnd Hlen. apply list_eq. intros n.
  unfold render, patch_record.
  rewrite <-list_fmap_compose, list_lookup_fmap, lookup_zip_with.
  destruct (header !! n) as [key|] eqn:Hkey; [simpl|done].
  destruct (rec !! n) as [c|] eqn:Hc.
  - simpl. f_equal. unfold get_restval. rewrite assign_outputs_lookup.
    destruct (given o key); [done|].
    rewrite DictReader_next_rect by done. simpl.
    by rewrite (dict_zip_NoDup_lookup header rec n key c).
  - apply lookup_lt_Some in Hkey. apply lookup_ge_None in Hc. lia.
Qed.

Lemma render_DictReader_next header rec :
  NoDup header → length rec = length header →
  render float_str header (DictReader_next header rec) = rec.
Proof.
  intros Hnd Hlen. apply list_eq. intros n. unfold render.
  rewrite <-list_fmap_compose, list_lookup_fmap.
  destruct (rec !! n) as [c|] eqn:Hc.
  - destruct (lookup_lt_is_Some_2 header n) as [key Hkey].
    { apply lookup_lt_Some in Hc. lia. }
    rewrite Hkey. simpl. f_equal. unfold get_restval.
    rewrite DictReader_next_rect by done. simpl.
    by rewrite (dict_zip_NoDup_lookup header rec n key c).
  - apply lookup_ge_None in Hc.
    rewrite (proj2 (lookup_ge_None header n)); [done|lia].
Qed.

(** X5: with no column name twice in the header, a successful write puts
    into the file its non-blank lines as they were, the line of the
    matching row with the text of each supplied value in its column and
    every other field as it was. *)
Theorem write_timeseries_records fs csv_file timestamp o header data i row :
  fs !! csv_file = Some (header :: data) →
  NoDup header →
  rectangular header data →
  given_in_header o header →
  first_match (DictReader_rows (header :: data)) timestamp i row →
  ∃ rec,
    filter nonblank data !! i = Some rec ∧
    write_timeseries float_str fs csv_file timestamp o
    = (Ok (),
       <[csv_file := header ::
           <[i := patch_record float_str o header rec]> (filter nonblank data)]>
         fs).
Proof.
  intros Hfs Hnd Hrect Hgiven Hfirst.
  rewrite (write_timeseries_found _ _ _ _ _ _ _ _ Hfs Hrect Hgiven Hfirst).
  destruct Hfirst as (Hi & _). simpl in Hi.
  apply list_lookup_fmap_Some in Hi as (rec & -> & Hrec).
  pose proof (filter_nonblank_rect _ _ Hrect) as Hlen.
  exists rec. split; [done|]. do 3 f_equal. simpl.
  rewrite list_fmap_insert.
  rewrite render_assign_DictReader_next
    by (by try eapply (Forall_lookup_1 _ _ _ _ Hlen)).
  f_equal. rewrite <-list_fmap_compose.
  rewrite <-(list_fmap_id (filter nonblank data)) at 2.
  apply list_fmap_ext. intros j r Hr. simpl.
  apply render_DictReader_next; [done|].
  by eapply (Forall_lookup_1 _ _ _ _ Hlen).
Qed.

(** ** Two writes in a row *)

Lemma same_text_render header row1 row2 :
  same_text float_str header row1 row2 →
  render float_str header row1 = render float_str header row2.
Proof. apply render_ext. Qed.

Lemma same_text_readback header row :
  same_text float_str header
    (DictReader_next header (render float_str header row)) row.
Proof.
  intros key Hkey. unfold get_restval at 1.
  rewrite DictReader_next_rect by apply render_length. simpl.
  unfold render. rewrite <-list_fmap_compose, dict_zip_fmap_lookup.
  by rewrite decide_True by done.
Qed.

Lemma readback_rows_insert header data timestamp o i row :
  rectangular header data →
  given_in_header o header →
  first_match (DictReader_rows (header :: data)) timestamp i row →
  DictReader_rows (pyfloat:=pyfloat)
    (header :: (render float_str header <$>
                  <[i := assign_outputs o row]> (DictReader_rows (header :: data))))
  = <[i := DictReader_next header (render float_str header (assign_outputs o row))]>
      (DictReader_rows (header :: data)).
Proof.
  intros Hrect Hgiven Hfirst.
  pose proof (first_match_time _ _ _ _ _ Hfirst) as Htime.
  assert (Hne : header ≠ []) by (by intros ->; apply elem_of_nil in Htime).
  pose proof (DictReader_rows_clean _ _ Hrect) as Hclean.
  rewrite DictReader_rows_render by done. rewrite list_fmap_insert. f_equal.
  rewrite <-(list_fmap_id (DictReader_rows (header :: data))) at 2.
  apply list_fmap_ext. intros j r Hr. simpl. apply readback_clean.
  by eapply Forall_lookup_1.
Qed.

(** The matching row as it is read back keeps the key. *)
Lemma readback_key header o row timestamp :
  "time" ∈ header →
  key_is timestamp row →
  key_is (pyfloat:=pyfloat) timestamp
    (DictReader_next header (render float_str header (assign_outputs o row))).
Proof.
  intros Htime Hkey. unfold key_is in *.
  rewrite DictReader_next_rect by apply render_length. simpl.
  unfold render. rewrite <-list_fmap_compose, dict_zip_fmap_lookup.
  rewrite decide_True by done. simpl. unfold get_restval.
  by rewrite assign_outputs_lookup, given_time, Hkey.
Qed.

(** A second write after a successful first one. *)
Lemma write_timeseries_twice fs csv_file header data
    timestamp1 o1 i1 row1 timestamp2 o2 i2 row2 :
  fs !! csv_file = Some (header :: data) →
  rectangular header data →
  given_in_header o1 header →
  given_in_header o2 header →
  first_match (DictReader_rows (header :: data)) timestamp1 i1 row1 →
  first_match
    (<[i1 := DictReader_next header (render float_str header (assign_outputs o1 row1))]>
       (DictReader_rows (header :: data))) timestamp2 i2 row2 →
  (write_timeseries float_str
     (write_timeseries float_str fs csv_file timestamp1 o1).2
     csv_file timestamp2 o2).2
  = <[csv_file := header :: (render float_str header <$>
        <[i2 := assign_outputs o2 row2]>
          (<[i1 := DictReader_next header
                     (render float_str header (assign_outputs o1 row1))]>
             (DictReader_rows (header :: data))))]> fs.
Proof.
  intros Hfs Hrect Hg1 Hg2 Hfirst1 Hfirst2.
  rewrite (write_timeseries_found _ _ _ _ _ _ _ _ Hfs Hrect Hg1 Hfirst1).
  cbn [snd].
  rewrite (write_timeseries_found _ _ _ _ header
             (render float_str header <$>
                <[i1:=assign_outputs o1 row1]> (DictReader_rows (header :: data)))
             i2 row2).
  - cbn [snd]. rewrite insert_insert_eq.
    by rewrite (readback_rows_insert _ _ timestamp1).
  - apply lookup_insert_eq.
  - apply rectangular_render.
  - done.
  - by rewrite (readback_rows_insert _ _ timestamp1).
Qed.

(** X6: two writes to different timestamps, both present in a table
    without ragged lines, leave the same files in either order. *)
Theorem write_timeseries_commute fs csv_file header data
    timestamp1 o1 i1 row1 timestamp2 o2 i2 row2 :
  fs !! csv_file = Some (header :: data) →
  rectangular header data →
  given_in_header o1 header →
  given_in_header o2 header →
  first_match (DictReader_rows (header :: data)) timestamp1 i1 row1 →
  first_match (DictReader_rows (header :: data)) timestamp2 i2 row2 →
  timestamp1 ≠ timestamp2 →
  (write_timeseries float_str
     (write_timeseries float_str fs csv_file timestamp1 o1).2
     csv_file timestamp2 o2).2
  = (write_timeseries float_str
       (write_timeseries float_str fs csv_file timestamp2 o2).2
       csv_file timestamp1 o1).2.
Proof.
  intros Hfs Hrect Hg1 Hg2 Hfirst1 Hfirst2 Hne.
  set (rows := DictReader_rows (pyfloat:=pyfloat) (header :: data)) in *.
  pose proof (first_match_time _ _ _ _ _ Hfirst1) as Htime.
  assert (Hi : i1 ≠ i2).
  { intros ->. destruct Hfirst1 as (H1 & K1 & _), Hfirst2 as (H2 & K2 & _).
    rewrite H1 in H2. injection H2 as ->. unfold key_is in *.
    rewrite K1 in K2. by injection K2. }
  assert (Hmove : ∀ ta oa ia ra tb ib rb,
    first_match rows ta ia ra → first_match rows tb ib rb → ta ≠ tb → ia ≠ ib →
    first_match
      (<[ia := DictReader_next header (render float_str header (assign_outputs oa ra))]>
         rows) tb ib rb).
  { intros ta oa ia ra tb ib rb (Ha & Ka & Fa) (Hb & Kb & Fb) Hab Hiab.
    split_and!.
    - by rewrite list_lookup_insert_ne.
    - done.
    - intros j r Hj Hr. destruct (decide (j = ia)) as [->|Hja].
      + rewrite list_lookup_insert_eq in Hr by (by eapply lookup_lt_Some).
        injection Hr as <-. intros Hk.
        pose proof (readback_key header oa ra ta Htime Ka) as Hk'.
        unfold key_is in *. rewrite Hk in Hk'. by injection Hk'.
      + rewrite list_lookup_insert_ne in Hr by done. by eapply Fb. }
  rewrite (write_timeseries_twice fs csv_file header data
             timestamp1 o1 i1 row1 timestamp2 o2 i2 row2);
    [|done..|by apply (Hmove timestamp1 o1 i1 row1 timestamp2 i2 row2)].
  rewrite (write_timeseries_twice fs csv_file header data
             timestamp2 o2 i2 row2 timestamp1 o1 i1 row1);
    [|done..|by apply (Hmove timestamp2 o2 i2 row2 timestamp1 i1 row1)].
  fold rows. do 2 f_equal. rewrite !list_fmap_insert.
  rewrite !(same_text_render _ _ _ (same_text_readback header _)).
  by apply list_insert_insert_ne.
Qed.

Lemma given_override o1 o2 key :
  given (override o1 o2) key
  = match given o2 key with
    | Some v => Some v
    | None => given o1 key
    end.
Proof.
  unfold given, output_args, override, or_else. simpl.
  repeat case_decide; done.
Qed.

(** X7: on a table without ragged lines, a write followed by a second
    write to the same existing timestamp leaves the files that a single
    write leaves which supplies the values of the second call and, for the
    columns the second call leaves out, those of the first. *)
Theorem write_timeseries_override fs csv_file header data timestamp o1 o2 i row :
  fs !! csv_file = Some (header :: data) →
  rectangular header data →
  given_in_header o1 header →
  given_in_header o2 header →
  first_match (DictReader_rows (header :: data)) timestamp i row →
  (write_timeseries float_str
     (write_timeseries float_str fs csv_file timestamp o1).2
     csv_file timestamp o2).2
  = (write_timeseries float_str fs csv_file timestamp (override o1 o2)).2.
Proof.
  intros Hfs Hrect Hg1 Hg2 Hfirst.
  set (rows := DictReader_rows (pyfloat:=pyfloat) (header :: data)) in *.
  pose proof (first_match_time _ _ _ _ _ Hfirst) as Htime.
  assert (Hg : given_in_header (override o1 o2) header).
  { apply given_in_header_iff. intros key. rewrite given_override.
    destruct (given o2 key) as [v2|] eqn:H2.
    - intros _. by apply (given_in_header_elem o2 header key v2).
    - intros [v Hv]. by apply (given_in_header_elem o1 header key v). }
  rewrite (write_timeseries_twice fs csv_file header data
             timestamp o1 i row timestamp o2 i
             (DictReader_next header (render float_str header (assign_outputs o1 row))));
    [|done..|].
  - rewrite (write_timeseries_found _ _ _ _ _ _ _ _ Hfs Hrect Hg Hfirst).
    cbn [snd]. fold rows. do 2 f_equal.
    rewrite list_insert_insert_eq, !list_fmap_insert. f_equal.
    apply same_text_render. intros key Hkey.
    unfold get_restval. rewrite !assign_outputs_lookup, given_override.
    destruct (given o2 key); [done|].
    pose proof (same_text_readback header (assign_outputs o1 row) key Hkey) as Hrb.
    unfold get_restval in Hrb. rewrite Hrb, assign_outputs_lookup.
    by destruct (given o1 key).
  - fold rows. destruct Hfirst as (Hi & Hk & Hf). split_and!.
    + apply list_lookup_insert_eq. by eapply lookup_lt_Some.
    + by apply readback_key.
    + intros j r Hj Hr. rewrite list_lookup_insert_ne in Hr by lia.
      by eapply Hf.
Qed.

End Writing.

(** ** Reading the time series *)

Section Reading.
Variable float_of_string : string → option pyfloat.

Lemma read_timeseries_loop_first_match rows csv_file timestamp i row :
  Forall has_time rows →
  first_match rows timestamp i row →
  read_timeseries_loop float_of_string rows csv_file timestamp
  = (t2 ← getitem row "t2"; x ← float float_of_string t2;
     F2 ← getitem row "F2"; y ← float float_of_string F2; Ok (x, y)).
Proof.
  revert i. induction rows as [|r rows IH]; intros i Htime (Hi & Hkey & Hfirst).
  { by rewrite lookup_nil in Hi. }
  apply Forall_cons in Htime as [[c Hc] Htime].
  simpl. assert (getitem r "time" = Ok c) as ->.
  { unfold getitem. by rewrite Hc. }
  simpl. destruct i as [|i]; simpl in *.
  - injection Hi as ->. unfold key_is in Hkey.
    rewrite Hc in Hkey. injection Hkey as ->.
    by rewrite (proj2 (eq_str_true _ _)).
  - assert (eq_str c timestamp = false) as ->.
    { apply eq_str_false. intros ->. by apply (Hfirst 0 r); [lia|done|]. }
    apply (IH i); [done|].
    split_and!; [done|done|].
    intros j row' Hj Hrow'. apply (Hfirst (S j) row'); [lia|done].
Qed.

Lemma read_timeseries_loop_no_match rows csv_file timestamp :
  Forall has_time rows →
  Forall (λ row, ¬ key_is timestamp row) rows →
  read_timeseries_loop float_of_string rows csv_file timestamp
  = Raise (ValueError (timestamp_not_found timestamp csv_file)).
Proof.
  induction rows as [|row rows IH]; simpl; [done|].
  intros [[c Hc] Htime]%Forall_cons [Hrow Hrows]%Forall_cons.
  unfold getitem. rewrite Hc. simpl.
  assert (eq_str c timestamp = false) as ->.
  { apply eq_str_false. intros ->. by apply Hrow. }
  by apply IH.
Qed.

(** C2: on a table with a [time] column, [read_timeseries] returns the
    numbers written in the [t2] and [F2] cells of the first row, in file
    order, whose key is the timestamp; when no row has that key it raises
    the not-found [ValueError]. *)
Theorem read_timeseries_first_match fs csv_file timestamp header data :
  fs !! csv_file = Some (header :: data) →
  "time" ∈ header →
  (∀ i row s1 s2 x y,
     first_match (DictReader_rows (header :: data)) timestamp i row →
     fields row !! "t2" = Some (PStr s1) → float_of_string s1 = Some x →
     fields row !! "F2" = Some (PStr s2) → float_of_string s2 = Some y →
     read_timeseries float_of_string fs csv_file timestamp = Ok (x, y)) ∧
  (Forall (λ row, ¬ key_is timestamp row) (DictReader_rows (header :: data)) →
   read_timeseries float_of_string fs csv_file timestamp
   = Raise (ValueError (timestamp_not_found timestamp csv_file))).
Proof.
  intros Hfs Htime. unfold read_timeseries. rewrite Hfs. split.
  - intros i row s1 s2 x y Hfirst Ht2 Hx HF2 Hy.
    rewrite (read_timeseries_loop_first_match _ _ _ i row)
      by (by try apply DictReader_rows_has_time).
    unfold getitem. rewrite Ht2. simpl. rewrite Hx. simpl.
    rewrite HF2. simpl. by rewrite Hy.
  - intros Hno. apply read_timeseries_loop_no_match; [|done].
    by apply DictReader_rows_has_time.
Qed.

(** C8: the two single-field readers are the pair reader followed by a
    projection: they return its first and its second component, and raise
    exactly the exception it raises. *)
Theorem read_timeseries_projections fs csv_file timestamp :
  read_timeseries_t2 float_of_string fs csv_file timestamp
  = fst <$> read_timeseries float_of_string fs csv_file timestamp ∧
  read_timeseries_f2 float_of_string fs csv_file timestamp
  = snd <$> read_timeseries float_of_string fs csv_file timestamp ∧
  ∀ e,
    (read_timeseries_t2 float_of_string fs csv_file timestamp = Raise e
     ↔ read_timeseries float_of_string fs csv_file timestamp = Raise e) ∧
    (read_timeseries_f2 float_of_string fs csv_file timestamp = Raise e
     ↔ read_timeseries float_of_string fs csv_file timestamp = Raise e).
Proof.
  unfold read_timeseries_t2, read_timeseries_f2.
  destruct (read_timeseries float_of_string fs csv_file timestamp)
    as [[t2 f2]|e']; simpl; split_and!; try done.
  intros e. split; split; congruence.
Qed.

Lemma read_timeseries_no_time fs csv_file timestamp header data :
  fs !! csv_file = Some (header :: data) →
  "time" ∉ header →
  DictReader_rows (pyfloat:=pyfloat) (header :: data) ≠ [] →
  read_timeseries float_of_string fs csv_file timestamp
  = Raise (KeyError "time").
Proof.
  intros Hfs Htime Hrows. unfold read_timeseries. rewrite Hfs.
  destruct (DictReader_rows (header :: data)) as [|row rows] eqn:E; [done|].
  assert (fields row !! "time" = None) as Hnone.
  { apply eq_None_not_Some.
    rewrite (DictReader_rows_has_key header data "time" row); [done|].
    rewrite E. apply list_elem_of_here. }
  simpl. unfold getitem. by rewrite Hnone.
Qed.

Lemma read_timeseries_no_t2 fs csv_file timestamp header data i row :
  fs !! csv_file = Some (header :: data) →
  first_match (DictReader_rows (header :: data)) timestamp i row →
  "t2" ∉ header →
  read_timeseries float_of_string fs csv_file timestamp = Raise (KeyError "t2").
Proof.
  intros Hfs Hfirst Ht2. unfold read_timeseries. rewrite Hfs.
  pose proof (first_match_time _ _ _ _ _ Hfirst) as Htime.
  rewrite (read_timeseries_loop_first_match _ _ _ i row)
    by (by try apply DictReader_rows_has_time).
  assert (fields row !! "t2" = None) as Hnone.
  { apply eq_None_not_Some. destruct Hfirst as [Hi%list_elem_of_lookup_2 _].
    by rewrite (DictReader_rows_has_key header data "t2" row Hi). }
  unfold getitem. by rewrite Hnone.
Qed.

Lemma read_timeseries_no_F2 fs csv_file timestamp header data i row :
  fs !! csv_file = Some (header :: data) →
  first_match (DictReader_rows (header :: data)) timestamp i row →
  "F2" ∉ header →
  ∃ e, read_timeseries float_of_string fs csv_file timestamp = Raise e.
Proof.
  intros Hfs Hfirst HF2. unfold read_timeseries. rewrite Hfs.
  pose proof (first_match_time _ _ _ _ _ Hfirst) as Htime.
  rewrite (read_timeseries_loop_first_match _ _ _ i row)
    by (by try apply DictReader_rows_has_time).
  assert (fields row !! "F2" = None) as Hnone.
  { apply eq_None_not_Some. destruct Hfirst as [Hi%list_elem_of_lookup_2 _].
    by rewrite (DictReader_rows_has_key header data "F2" row Hi). }
  unfold getitem. rewrite Hnone.
  destruct (fields row !! "t2") as [c|]; simpl; [|by eauto].
  destruct (float float_of_string c); simpl; by eauto.
Qed.

(** The three ways the scan can end. *)
Lemma read_timeseries_loop_cases rows csv_file timestamp :
  (∃ i row, first_match rows timestamp i row ∧
     read_timeseries_loop float_of_string rows csv_file timestamp
     = (t2 ← getitem row "t2"; x ← float float_of_string t2;
        F2 ← getitem row "F2"; y ← float float_of_string F2; Ok (x, y)))
  ∨ (Forall (λ row, ¬ key_is timestamp row) rows ∧
     read_timeseries_loop float_of_string rows csv_file timestamp
     = Raise (ValueError (timestamp_not_found timestamp csv_file)))
  ∨ read_timeseries_loop float_of_string rows csv_file timestamp
    = Raise (KeyError "time").
Proof.
  induction rows as [|r rows IH]; simpl.
  { right; left. by split. }
  destruct (fields r !! "time") as [c|] eqn:Hc.
  2: { assert (getitem r "time" = Raise (KeyError "time")) as ->.
       { unfold getitem. by rewrite Hc. }
       by right; right. }
  assert (getitem r "time" = Ok c) as ->.
  { unfold getitem. by rewrite Hc. }
  simpl.
  - destruct (eq_str c timestamp) eqn:Heq.
    + left. exists 0, r. split; [|done].
      apply eq_str_true in Heq as ->.
      split_and!; [done|done|]. intros j ? ?. lia.
    + apply eq_str_false in Heq.
      assert (Hr : ¬ key_is timestamp r).
      { unfold key_is. rewrite Hc. by intros [= ->]. }
      destruct IH as [(i & row & (Hi & Hkey & Hfirst) & ->)|[(Hno & ->)| ->]].
      * left. exists (S i), row. split; [|done].
        split_and!; [done|done|].
        intros [|j] row' Hj; simpl; [by intros [= <-]|].
        apply Hfirst. lia.
      * right; left. split; [by constructor|done].
      * by right; right.
Qed.

(** X15: whenever [read_timeseries] returns a pair, the file exists, some
    row has the timestamp as its key, and the pair is the two numbers that
    [float] reads in the [t2] and [F2] cells of the first such row. *)
Theorem read_timeseries_Ok_inv fs csv_file timestamp x y :
  read_timeseries float_of_string fs csv_file timestamp = Ok (x, y) →
  ∃ records i row t2 F2,
    fs !! csv_file = Some records ∧
    first_match (DictReader_rows records) timestamp i row ∧
    fields row !! "t2" = Some t2 ∧ float float_of_string t2 = Ok x ∧
    fields row !! "F2" = Some F2 ∧ float float_of_string F2 = Ok y.
Proof.
  unfold read_timeseries.
  destruct (fs !! csv_file) as [records|] eqn:Hfs; [|done].
  destruct (read_timeseries_loop_cases (DictReader_rows records) csv_file timestamp)
    as [(i & row & Hfirst & ->)|[(_ & ->)| ->]]; [|done..].
  unfold getitem.
  destruct (fields row !! "t2") as [t2|] eqn:Ht2; [simpl|done].
  destruct (float float_of_string t2) as [x'|] eqn:Hx; [simpl|done].
  destruct (fields row !! "F2") as [F2|] eqn:HF2; [simpl|done].
  destruct (float float_of_string F2) as [y'|] eqn:Hy; [simpl|done].
  intros [= -> ->]. exists records, i, row, t2, F2. by eauto 10.
Qed.

(** X8: when the first row with the timestamp holds text that is no
    number in [t2] (or, [t2] being a number, in [F2]), [read_timeseries]
    raises [ValueError] for that text, whatever rows follow; when that row
    is a short line without a [t2] field it raises [TypeError]. *)
Theorem read_timeseries_not_a_number fs csv_file timestamp header data i row :
  fs !! csv_file = Some (header :: data) →
  first_match (DictReader_rows (header :: data)) timestamp i row →
  (∀ s, fields row !! "t2" = Some (PStr s) → float_of_string s = None →
     read_timeseries float_of_string fs csv_file timestamp
     = Raise (ValueError (could_not_convert_to_float s))) ∧
  (fields row !! "t2" = Some PNone →
   read_timeseries float_of_string fs csv_file timestamp = Raise TypeError) ∧
  (∀ s1 x s2,
     fields row !! "t2" = Some (PStr s1) → float_of_string s1 = Some x →
     fields row !! "F2" = Some (PStr s2) → float_of_string s2 = None →
     read_timeseries float_of_string fs csv_file timestamp
     = Raise (ValueError (could_not_convert_to_float s2))).
Proof.
  intros Hfs Hfirst. unfold read_timeseries. rewrite Hfs.
  pose proof (first_match_time _ _ _ _ _ Hfirst) as Htime.
  rewrite (read_timeseries_loop_first_match _ _ _ i row)
    by (by try apply DictReader_rows_has_time).
  unfold getitem. split_and!.
  - intros s -> Hs. simpl. by rewrite Hs.
  - by intros ->.
  - intros s1 x s2 -> Hx -> Hs2. simpl. rewrite Hx. simpl. by rewrite Hs2.
Qed.

(** The result of the scan depends on three columns only. *)
Lemma read_timeseries_loop_ext rows1 rows2 csv_file timestamp :
  Forall2 (λ row1 row2, ∀ key, key ∈ read_columns →
                          fields row1 !! key = fields row2 !! key)
    rows1 rows2 →
  read_timeseries_loop float_of_string rows1 csv_file timestamp
  = read_timeseries_loop float_of_string rows2 csv_file timestamp.
Proof.
  induction 1 as [|row1 row2 rows1 rows2 Hrow _ IH]; simpl; [done|].
  unfold getitem.
  rewrite (Hrow "time"), (Hrow "t2"), (Hrow "F2")
    by (apply (bool_decide_unpack _); by vm_compute).
  by rewrite IH.
Qed.

End Reading.

(** ** A file whose columns are not the ones an operation uses *)

Section SchemaMismatch.
Variable float_of_string : string → option pyfloat.
Variable float_str : pyfloat → string.

(** C7, as amended: the columns an operation uses and the file lacks make
    it raise, and the exception is the function's result.  A write that
    supplies a value for a column outside the header raises the
    [ValueError] of [DictWriter] when a row has the timestamp as its key,
    after the file has been opened for writing; when no row has, the
    not-found error is raised instead.  Without a [time] column and with at
    least one row, reading and writing raise [KeyError]; so does reading a
    matching row without a [t2] or [F2] column. *)
Theorem schema_mismatch_raises fs csv_file timestamp o header data :
  fs !! csv_file = Some (header :: data) →
  let rows := DictReader_rows (pyfloat:=pyfloat) (header :: data) in
  (∀ key v i row,
     given o key = Some v → key ∉ header →
     first_match rows timestamp i row →
     ∃ w out, write_timeseries float_str fs csv_file timestamp o
              = (Raise (ValueError (fields_not_in_fieldnames w)),
                 <[csv_file := out]> fs)) ∧
  ("time" ∈ header →
   Forall (λ row, ¬ key_is timestamp row) rows →
   write_timeseries float_str fs csv_file timestamp o
   = (Raise (ValueError (timestamp_not_found timestamp csv_file)), fs)) ∧
  ("time" ∉ header → rows ≠ [] →
   write_timeseries float_str fs csv_file timestamp o
   = (Raise (KeyError "time"), fs) ∧
   read_timeseries float_of_string fs csv_file timestamp
   = Raise (KeyError "time")) ∧
  (∀ i row,
     first_match rows timestamp i row → "t2" ∉ header →
     read_timeseries float_of_string fs csv_file timestamp
     = Raise (KeyError "t2")) ∧
  (∀ i row,
     first_match rows timestamp i row → "F2" ∉ header →
     ∃ e, read_timeseries float_of_string fs csv_file timestamp = Raise e).
Proof.
  intros Hfs rows. split_and!.
  - intros key v i row Hv Hkey Hfirst.
    by eapply write_timeseries_missing_column.
  - intros Htime Hno. by eapply write_timeseries_no_match.
  - intros Htime Hrows. split.
    + by eapply write_timeseries_no_time.
    + by eapply read_timeseries_no_time.
  - intros i row Hfirst Ht2. by eapply read_timeseries_no_t2.
  - intros i row Hfirst HF2. by eapply read_timeseries_no_F2.
Qed.

End SchemaMismatch.

(** ** Reading and writing the same file *)

Section Composition.
Variable float_of_string : string → option pyfloat.
Variable float_str : pyfloat → string.

Lemma given_not_output o key : key ∉ output_fields → given o key = None.
Proof.
  intros Hkey. destruct (given o key) eqn:E; [|done].
  destruct Hkey. apply (given_output_field o). by eexists.
Qed.

(** X9: on a table without ragged lines, a write that supplies only
    columns of the header changes no answer of [read_timeseries]: for every
    file and every timestamp the reader returns or raises after the write
    what it did before. *)
Theorem write_timeseries_preserves_reads fs csv_file timestamp o header data
    path timestamp' :
  fs !! csv_file = Some (header :: data) →
  rectangular header data →
  given_in_header o header →
  read_timeseries float_of_string
    (write_timeseries float_str fs csv_file timestamp o).2 path timestamp'
  = read_timeseries float_of_string fs path timestamp'.
Proof.
  intros Hfs Hrect Hgiven.
  destruct (decide (path = csv_file)) as [->|Hpath].
  2: { unfold read_timeseries.
       destruct (write_timeseries_store float_str fs csv_file timestamp o)
         as [->|(records & out & _ & ->)]; [done|].
       by rewrite lookup_insert_ne. }
  destruct (update_loop_cases (DictReader_rows (header :: data)) timestamp o)
    as [(i & row & Hfirst & _)|[(_ & _ & Hupd)|(_ & Hupd)]].
  - rewrite (write_timeseries_found _ _ _ _ _ _ _ _ _ Hfs Hrect Hgiven Hfirst).
    cbn [snd]. unfold read_timeseries. rewrite lookup_insert_eq, Hfs.
    destruct (readback_rows float_str _ _ _ _ _ _ Hrect Hgiven Hfirst)
      as (Hlen & Hother & row' & Hi' & _ & Hrow').
    apply read_timeseries_loop_ext.
    apply Forall2_same_length_lookup_2; [done|].
    intros j r1 r2 Hr1 Hr2 key Hkey.
    destruct (decide (j = i)) as [->|Hj].
    + destruct Hfirst as (Hi & _). rewrite Hi' in Hr1. rewrite Hi in Hr2.
      injection Hr1 as <-. injection Hr2 as <-.
      rewrite Hrow', given_not_output; [done|].
      intros Hout. revert Hkey Hout. unfold read_columns, output_fields.
      rewrite !elem_of_cons, !elem_of_nil. naive_solver.
    + rewrite Hother in Hr1 by done. rewrite Hr1 in Hr2. by injection Hr2 as <-.
  - unfold write_timeseries. by rewrite Hfs, Hupd.
  - unfold write_timeseries. by rewrite Hfs, Hupd.
Qed.

(** X10: on a file without any data row (an empty file, a header alone, a
    header followed by blank lines) the reader and the writer both raise
    the not-found error, whatever the header is, and the file is left as
    it was. *)
Theorem no_rows_not_found fs csv_file timestamp o records :
  fs !! csv_file = Some records →
  Forall (λ rec, rec = []) (tail records) →
  read_timeseries float_of_string fs csv_file timestamp
  = Raise (ValueError (timestamp_not_found timestamp csv_file)) ∧
  write_timeseries float_str fs csv_file timestamp o
  = (Raise (ValueError (timestamp_not_found timestamp csv_file)), fs).
Proof.
  intros Hfs Hblank.
  assert (Hrows : DictReader_rows (pyfloat:=pyfloat) records = []).
  { destruct records as [|header data]; [done|].
    cbn [tail] in Hblank. unfold DictReader_rows. clear Hfs.
    induction Hblank as [|rec data -> _ IH]; [done|].
    by rewrite filter_cons_False by (by intros []). }
  unfold read_timeseries, write_timeseries. by rewrite Hfs, Hrows.
Qed.

End Composition.

(** ** The equipment configuration *)

Section Configuration.
Implicit Types (cfg : gmap string (json_file pyfloat)).

(** C6: for a document with the six power points, the supply temperature
    and the two load limits in place, [get_hp_characteristics] returns nine
    values: the six power points in document order, then the supply
    temperature, the lower and the upper load limit. *)
Theorem get_hp_characteristics_tuple cfg config_file
    members hp characteristics powers t_supply load_limits load_min load_max :
  cfg !! config_file = Some (Document (JObj members)) →
  dict_get members "heat_pumps" = Some (JObj hp) →
  dict_get hp "characteristics" = Some (JObj characteristics) →
  dict_get characteristics "power_consumption" = Some (JArr powers) →
  length powers = 6 →
  dict_get hp "supply_temperature" = Some t_supply →
  dict_get hp "load_limits" = Some (JObj load_limits) →
  dict_get load_limits "min" = Some load_min →
  dict_get load_limits "max" = Some load_max →
  ∃ tuple,
    get_hp_characteristics cfg config_file = Ok tuple ∧
    length tuple = 9 ∧
    take 6 tuple = powers ∧
    drop 6 tuple = [t_supply; load_min; load_max].
Proof.
  intros Hcfg Hhp Hch Hpowers Hlen Ht Hll Hmin Hmax.
  exists (powers ++ [t_supply; load_min; load_max]). split_and!.
  - unfold get_hp_characteristics, json_load. rewrite Hcfg. simpl.
    rewrite Hhp. simpl. rewrite Hch. simpl. rewrite Hpowers. simpl.
    rewrite Ht. simpl. rewrite Hll. simpl. rewrite Hmin. simpl.
    by rewrite Hmax.
  - rewrite length_app, Hlen. done.
  - by rewrite take_app_length' by done.
  - by rewrite drop_app_length' by done.
Qed.

(** C9: [get_equipment_count] returns the value stored under
    [heat_pumps.count]; it raises [FileNotFoundError] when there is no
    file, [KeyError] when the document has no [heat_pumps] or that object
    has no [count], and [JSONDecodeError] when the file is not JSON.
    (Subscripting a parent that is not an object raises [TypeError].) *)
Theorem get_equipment_count_spec cfg config_file :
  (∀ members hp v,
     cfg !! config_file = Some (Document (JObj members)) →
     dict_get members "heat_pumps" = Some (JObj hp) →
     dict_get hp "count" = Some v →
     get_equipment_count cfg config_file = Ok v) ∧
  (cfg !! config_file = None →
   get_equipment_count cfg config_file = Raise (FileNotFoundError config_file)) ∧
  (∀ members,
     cfg !! config_file = Some (Document (JObj members)) →
     dict_get members "heat_pumps" = None →
     get_equipment_count cfg config_file = Raise (KeyError "heat_pumps")) ∧
  (∀ members hp,
     cfg !! config_file = Some (Document (JObj members)) →
     dict_get members "heat_pumps" = Some (JObj hp) →
     dict_get hp "count" = None →
     get_equipment_count cfg config_file = Raise (KeyError "count")) ∧
  (cfg !! config_file = Some Malformed →
   get_equipment_count cfg config_file = Raise JSONDecodeError).
Proof.
  unfold get_equipment_count, json_load. split_and!.
  - intros members hp v -> Hhp Hcount. simpl. rewrite Hhp. simpl.
    by rewrite Hcount.
  - by intros ->.
  - intros members -> Hhp. simpl. by rewrite Hhp.
  - intros members hp -> Hhp Hcount. simpl. rewrite Hhp. simpl.
    by rewrite Hcount.
  - by intros ->.
Qed.

(** X16: [get_equipment_count] raises [TypeError] when the document is
    not an object or when [heat_pumps] is not one. *)
Theorem get_equipment_count_not_object cfg config_file :
  (∀ config,
     cfg !! config_file = Some (Document config) → not_object config →
     get_equipment_count cfg config_file = Raise TypeError) ∧
  (∀ members heat_pumps,
     cfg !! config_file = Some (Document (JObj members)) →
     dict_get members "heat_pumps" = Some heat_pumps → not_object heat_pumps →
     get_equipment_count cfg config_file = Raise TypeError).
Proof.
  unfold get_equipment_count, json_load. split.
  - intros config -> Hno. by destruct config.
  - intros members heat_pumps -> Hhp Hno. simpl. rewrite Hhp.
    by destruct heat_pumps.
Qed.

(** X11: [get_pump_characteristics] returns the value stored under
    [pumps.rated_power], whatever its type; it raises [FileNotFoundError]
    when there is no file, [JSONDecodeError] when the file is not JSON,
    [KeyError] naming the key when [pumps] or [rated_power] is missing, and
    [TypeError] when the document or [pumps] is not an object. *)
Theorem get_pump_characteristics_spec cfg config_file :
  (∀ members pumps v,
     cfg !! config_file = Some (Document (JObj members)) →
     dict_get members "pumps" = Some (JObj pumps) →
     dict_get pumps "rated_power" = Some v →
     get_pump_characteristics cfg config_file = Ok v) ∧
  (cfg !! config_file = None →
   get_pump_characteristics cfg config_file
   = Raise (FileNotFoundError config_file)) ∧
  (cfg !! config_file = Some Malformed →
   get_pump_characteristics cfg config_file = Raise JSONDecodeError) ∧
  (∀ members,
     cfg !! config_file = Some (Document (JObj members)) →
     dict_get members "pumps" = None →
     get_pump_characteristics cfg config_file = Raise (KeyError "pumps")) ∧
  (∀ members pumps,
     cfg !! config_file = Some (Document (JObj members)) →
     dict_get members "pumps" = Some (JObj pumps) →
     dict_get pumps "rated_power" = None →
     get_pump_characteristics cfg config_file = Raise (KeyError "rated_power")) ∧
  (∀ config,
     cfg !! config_file = Some (Document config) → not_object config →
     get_pump_characteristics cfg config_file = Raise TypeError) ∧
  (∀ members pumps,
     cfg !! config_file = Some (Document (JObj members)) →
     dict_get members "pumps" = Some pumps → not_object pumps →
     get_pump_characteristics cfg config_file = Raise TypeError).
Proof.
  unfold get_pump_characteristics, json_load. split_and!.
  - intros members pumps v -> Hp Hv. simpl. rewrite Hp. simpl. by rewrite Hv.
  - by intros ->.
  - by intros ->.
  - intros members -> Hp. simpl. by rewrite Hp.
  - intros members pumps -> Hp Hv. simpl. rewrite Hp. simpl. by rewrite Hv.
  - intros config -> Hno. by destruct config.
  - intros members pumps -> Hp Hno. simpl. rewrite Hp. by destruct pumps.
Qed.

(** X12: [get_hp_characteristics] does not check the number of power
    points: for a list of [n] points it returns the [n] points followed by
    the supply temperature and the two load limits, [n + 3] values; for
    power points that are a number, a boolean or null it raises
    [TypeError]. *)
Theorem get_hp_characteristics_no_length_check cfg config_file
    members hp characteristics powers t_supply load_limits load_min load_max :
  cfg !! config_file = Some (Document (JObj members)) →
  dict_get members "heat_pumps" = Some (JObj hp) →
  dict_get hp "characteristics" = Some (JObj characteristics) →
  dict_get characteristics "power_consumption" = Some powers →
  dict_get hp "supply_temperature" = Some t_supply →
  dict_get hp "load_limits" = Some (JObj load_limits) →
  dict_get load_limits "min" = Some load_min →
  dict_get load_limits "max" = Some load_max →
  (∀ points, powers = JArr points →
     get_hp_characteristics cfg config_file
     = Ok (points ++ [t_supply; load_min; load_max]) ∧
     length (points ++ [t_supply; load_min; load_max]) = length points + 3) ∧
  (scalar powers → get_hp_characteristics cfg config_file = Raise TypeError).
Proof.
  intros Hcfg Hhp Hch Hpowers Ht Hll Hmin Hmax.
  unfold get_hp_characteristics, json_load. rewrite Hcfg. simpl.
  rewrite Hhp. simpl. rewrite Hch. simpl. rewrite Hpowers. simpl.
  rewrite Ht. simpl. rewrite Hll. simpl. rewrite Hmin. simpl.
  rewrite Hmax. simpl. split.
  - intros points ->. split; [done|]. by rewrite length_app.
  - intros Hscalar. by destruct powers.
Qed.

(** X13: a missing field makes [get_hp_characteristics] raise [KeyError]
    naming it, the fields being looked up in the order characteristics,
    power_consumption, supply_temperature, load_limits, min, max: the first
    missing one is reported, and a missing one is reported before the power
    points are looked at. *)
Theorem get_hp_characteristics_missing cfg config_file members hp :
  cfg !! config_file = Some (Document (JObj members)) →
  dict_get members "heat_pumps" = Some (JObj hp) →
  (dict_get hp "characteristics" = None →
   get_hp_characteristics cfg config_file = Raise (KeyError "characteristics")) ∧
  (∀ characteristics,
     dict_get hp "characteristics" = Some (JObj characteristics) →
     (dict_get characteristics "power_consumption" = None →
      get_hp_characteristics cfg config_file
      = Raise (KeyError "power_consumption")) ∧
     (∀ powers,
        dict_get characteristics "power_consumption" = Some powers →
        (dict_get hp "supply_temperature" = None →
         get_hp_characteristics cfg config_file
         = Raise (KeyError "supply_temperature")) ∧
        (∀ t_supply,
           dict_get hp "supply_temperature" = Some t_supply →
           (dict_get hp "load_limits" = None →
            get_hp_characteristics cfg config_file
            = Raise (KeyError "load_limits")) ∧
           (∀ load_limits,
              dict_get hp "load_limits" = Some (JObj load_limits) →
              (dict_get load_limits "min" = None →
               get_hp_characteristics cfg config_file = Raise (KeyError "min")) ∧
              (∀ load_min,
                 dict_get load_limits "min" = Some load_min →
                 dict_get load_limits "max" = None →
                 get_hp_characteristics cfg config_file
                 = Raise (KeyError "max")))))).
Proof.
  intros Hcfg Hhp. unfold get_hp_characteristics, json_load.
  rewrite Hcfg. simpl. rewrite Hhp. simpl. split.
  { by intros ->. }
  intros characteristics ->. simpl. split.
  { by intros ->. }
  intros powers ->. simpl. split.
  { by intros ->. }
  intros t_supply ->. simpl. split.
  { by intros ->. }
  intros load_limits ->. simpl. split.
  { by intros ->. }
  intros load_min -> ->. done.
Qed.

End Configuration.

End Properties.

(** * The theorems at sample inputs *)

Lemma sample_rectangular : rectangular sample_header sample_data.
Proof. compute_hyp. Defined.

Lemma sample_given_in_header : given_in_header sample_outputs sample_header.
Proof. compute_hyp. Defined.

Lemma sample_first_match :
  first_match (DictReader_rows sample_csv) "202512071900" 1 sample_row.
Proof.
  second_row_matches.
Defined.

Lemma sample_no_match :
  Forall (λ row : rowdict Z, ¬ key_is "209901010000" row)
    (DictReader_rows sample_csv).
Proof. compute_hyp. Defined.

(** C1 at the sample file: total power and the load of the first heat pump
    are written to the row of 19:00. *)
Lemma write_timeseries_frame_witness :
  ∃ written row',
    write_timeseries sample_float_str sample_fs "timeseries.csv"
      "202512071900" sample_outputs
    = (Ok (), <["timeseries.csv" := written]> sample_fs) ∧
    DictReader_fieldnames written = Some sample_header ∧
    DictReader_rows (pyfloat:=Z) written !! 0 = DictReader_rows sample_csv !! 0 ∧
    DictReader_rows (pyfloat:=Z) written !! 1 = Some row' ∧
    fields row' !! "hp1_load" = Some (PStr "80") ∧
    fields row' !! "t2" = Some (PStr "45").
Proof.
  destruct (write_timeseries_frame sample_float_str sample_fs "timeseries.csv"
              "202512071900" sample_outputs sample_header sample_data 1 sample_row)
    as (written & Hwrite & Hheader & _ & Hother & row' & Hrow' & _ & Hfields).
  - reflexivity.
  - exact sample_rectangular.
  - exact sample_given_in_header.
  - exact sample_first_match.
  - exists written, row'. split_and!; [done|done|by apply Hother|done|..].
    + by rewrite Hfields.
    + by rewrite Hfields.
Defined.

(** C2 at the sample file. *)
Lemma read_timeseries_first_match_witness :
  read_timeseries sample_float_of_string sample_fs "timeseries.csv" "202512071900"
  = Ok (45%Z, 120%Z) ∧
  read_timeseries sample_float_of_string sample_fs "timeseries.csv" "209901010000"
  = Raise (ValueError (timestamp_not_found "209901010000" "timeseries.csv")).
Proof.
  split.
  - apply (proj1 (read_timeseries_first_match sample_float_of_string sample_fs
                    "timeseries.csv" "202512071900" sample_header sample_data
                    eq_refl ltac:(compute_hyp))
             1 sample_row "45" "120" 45%Z 120%Z sample_first_match);
      reflexivity.
  - apply (proj2 (read_timeseries_first_match sample_float_of_string sample_fs
                    "timeseries.csv" "209901010000" sample_header sample_data
                    eq_refl ltac:(compute_hyp))).
    exact sample_no_match.
Defined.

(** C3 at the sample file. *)
Lemma write_timeseries_not_found_iff_witness :
  (write_timeseries sample_float_str sample_fs "timeseries.csv" "209901010000"
     sample_outputs).1
  = Raise (ValueError (timestamp_not_found "209901010000" "timeseries.csv")).
Proof.
  apply (write_timeseries_not_found_iff sample_float_str sample_fs
           "timeseries.csv" "209901010000" sample_outputs sample_header
           sample_data eq_refl ltac:(compute_hyp)).
  exact sample_no_match.
Defined.

(** C10 at the sample file. *)
Lemma write_timeseries_not_found_atomic_witness :
  write_timeseries sample_float_str sample_fs "timeseries.csv" "209901010000"
    sample_outputs
  = (Raise (ValueError (timestamp_not_found "209901010000" "timeseries.csv")),
     sample_fs) ∧
  (write_timeseries sample_float_str sample_fs "timeseries.csv" "209901010000"
     sample_outputs).2 = sample_fs.
Proof.
  destruct (write_timeseries_not_found_atomic sample_float_str sample_fs
              "timeseries.csv" "209901010000" sample_outputs) as [Hraise Hsame].
  split.
  - apply (Hraise sample_header sample_data eq_refl ltac:(compute_hyp)).
    exact sample_no_match.
  - apply (Hsame "209901010000" "timeseries.csv"). reflexivity.
Defined.

(** C4 at the sample file: two writes that find their row and one that
    does not. *)
Lemma write_all_keeps_row_keys_witness :
  ∃ data',
    write_all sample_float_str sample_fs "timeseries.csv"
      [ ("202512071900", sample_outputs); ("209901010000", sample_outputs);
        ("202512072000", no_outputs) ] !! "timeseries.csv"
    = Some (sample_header :: data') ∧
    row_keys (pyfloat:=Z) (sample_header :: data') = row_keys sample_csv.
Proof.
  apply (write_all_keeps_row_keys sample_float_str sample_fs "timeseries.csv"
           _ sample_header sample_data eq_refl sample_rectangular).
  compute_hyp.
Defined.

(** C5 at the sample file. *)
Lemma write_timeseries_idempotent_witness :
  (write_timeseries sample_float_str
     (write_timeseries sample_float_str sample_fs "timeseries.csv"
        "202512071900" sample_outputs).2
     "timeseries.csv" "202512071900" sample_outputs).2
  = (write_timeseries sample_float_str sample_fs "timeseries.csv"
       "202512071900" sample_outputs).2.
Proof.
  exact (write_timeseries_idempotent sample_float_str sample_fs "timeseries.csv"
           "202512071900" sample_outputs sample_header sample_data
           eq_refl sample_rectangular).
Defined.

(** What the code does where C7 as worded fails: the header lacks
    [hp1_load], a value for it is supplied, no row has the timestamp; the
    not-found error is raised and the file is untouched. *)
Example missing_column_absent_timestamp :
  write_timeseries sample_float_str inputs_only_fs "timeseries.csv"
    "209901010000" sample_outputs
  = (Raise (ValueError (timestamp_not_found "209901010000" "timeseries.csv")),
     inputs_only_fs).
Proof. vm_compute. reflexivity. Qed.

(** C7 as worded does not hold. *)
Lemma missing_column_not_always_schema_error :
  ¬ missing_column_always_schema_error.
Proof.
  intros Hclaim.
  destruct (Hclaim inputs_only_fs "timeseries.csv" "209901010000" sample_outputs
              inputs_only_header inputs_only_data "hp1_load" 80%Z)
    as (w & fs' & Hw).
  - reflexivity.
  - reflexivity.
  - compute_hyp.
  - rewrite missing_column_absent_timestamp in Hw. discriminate Hw.
Qed.

Lemma inputs_only_first_match :
  first_match (DictReader_rows inputs_only_csv) "202512071900" 1 inputs_only_row.
Proof.
  second_row_matches.
Defined.

(** C7 as amended, at a file with the input columns only. *)
Lemma schema_mismatch_raises_witness :
  (∃ w out,
     write_timeseries sample_float_str inputs_only_fs "timeseries.csv"
       "202512071900" sample_outputs
     = (Raise (ValueError (fields_not_in_fieldnames w)),
        <["timeseries.csv" := out]> inputs_only_fs)) ∧
  write_timeseries sample_float_str inputs_only_fs "timeseries.csv"
    "209901010000" sample_outputs
  = (Raise (ValueError (timestamp_not_found "209901010000" "timeseries.csv")),
     inputs_only_fs).
Proof.
  split.
  - apply (proj1 (schema_mismatch_raises sample_float_of_string sample_float_str
                    inputs_only_fs "timeseries.csv" "202512071900" sample_outputs
                    inputs_only_header inputs_only_data eq_refl)
             "hp1_load" 80%Z 1 inputs_only_row).
    + reflexivity.
    + compute_hyp.
    + exact inputs_only_first_match.
  - apply (proj1 (proj2 (schema_mismatch_raises sample_float_of_string
                           sample_float_str inputs_only_fs "timeseries.csv"
                           "209901010000" sample_outputs
                           inputs_only_header inputs_only_data eq_refl))).
    + compute_hyp.
    + compute_hyp.
Defined.

(** C8 at the sample file. *)
Lemma read_timeseries_projections_witness :
  read_timeseries_t2 sample_float_of_string sample_fs "timeseries.csv"
    "202512071900" = Ok 45%Z ∧
  read_timeseries_f2 sample_float_of_string sample_fs "timeseries.csv"
    "202512071900" = Ok 120%Z.
Proof.
  destruct (read_timeseries_projections sample_float_of_string sample_fs
              "timeseries.csv" "202512071900") as (Ht2 & Hf2 & _).
  rewrite Ht2, Hf2. split; reflexivity.
Defined.

(** C6 at the sample configuration. *)
Lemma get_hp_characteristics_tuple_witness :
  ∃ tuple,
    get_hp_characteristics sample_json_fs "equipment_config.json" = Ok tuple ∧
    length tuple = 9 ∧
    take 6 tuple = [JInt 5; JInt 12; JInt 20; JInt 29; JInt 39; JInt 50] ∧
    drop 6 tuple = [JInt 7; JInt 20; JInt 100].
Proof.
  eapply (get_hp_characteristics_tuple sample_json_fs "equipment_config.json");
    reflexivity.
Defined.

(** C9 at the sample configuration and at the three kinds of failure. *)
Lemma get_equipment_count_spec_witness :
  get_equipment_count sample_json_fs "equipment_config.json" = Ok (JInt 2) ∧
  get_equipment_count sample_json_fs "absent.json"
  = Raise (FileNotFoundError "absent.json") ∧
  get_equipment_count sample_json_fs "empty.json"
  = Raise (KeyError "heat_pumps") ∧
  get_equipment_count sample_json_fs "no_count.json" = Raise (KeyError "count") ∧
  get_equipment_count sample_json_fs "broken.json" = Raise JSONDecodeError.
Proof.
  split_and!.
  - eapply (proj1 (get_equipment_count_spec sample_json_fs
                     "equipment_config.json")); reflexivity.
  - apply (proj1 (proj2 (get_equipment_count_spec sample_json_fs "absent.json"))).
    reflexivity.
  - eapply (proj1 (proj2 (proj2 (get_equipment_count_spec sample_json_fs
                                   "empty.json")))); reflexivity.
  - eapply (proj1 (proj2 (proj2 (proj2 (get_equipment_count_spec sample_json_fs
                                          "no_count.json"))))); reflexivity.
  - apply (proj2 (proj2 (proj2 (proj2 (get_equipment_count_spec sample_json_fs
                                         "broken.json"))))).
    reflexivity.
Defined.

(** * The further theorems at sample inputs *)

Lemma sample_header_NoDup : NoDup sample_header.
Proof. compute_hyp. Defined.

Lemma sample_first_row_match :
  first_match (DictReader_rows sample_csv) "202512071800" 0 sample_first_row.
Proof. first_row_matches. Defined.

Lemma later_given_in_header : given_in_header later_outputs sample_header.
Proof. compute_hyp. Defined.

Lemma ragged_bad_number_match :
  first_match (DictReader_rows ragged_csv) "202512071900" 1 bad_number_row.
Proof. second_row_matches. Defined.

Lemma ragged_short_row_match :
  first_match (DictReader_rows ragged_csv) "202512071800" 0 short_row.
Proof. first_row_matches. Defined.

(** X1 at the sample file. *)
Lemma write_timeseries_other_files_witness :
  (write_timeseries sample_float_str sample_fs "timeseries.csv" "202512071900"
     sample_outputs).2 !! "other.csv" = None.
Proof.
  by rewrite (proj2 (write_timeseries_other_files sample_float_str sample_fs
                       "timeseries.csv" "202512071900" sample_outputs)
                "other.csv").
Defined.

(** X2 at the file with ragged lines. *)
Lemma write_timeseries_never_adds_rows_witness :
  ∃ data',
    (write_timeseries sample_float_str ragged_fs "timeseries.csv"
       "202512071800" no_outputs).2 !! "timeseries.csv"
    = Some (inputs_only_header :: data') ∧
    length (DictReader_rows (pyfloat:=Z) (inputs_only_header :: data'))
    ≤ length (DictReader_rows (pyfloat:=Z) ragged_csv).
Proof.
  destruct (write_timeseries_never_adds_rows sample_float_str ragged_fs
              "timeseries.csv" "202512071800" no_outputs inputs_only_header
              (tail ragged_csv) eq_refl) as (data' & H1 & H2 & _).
  exists data'. exact (conj H1 H2).
Defined.

(** X3 at the file with the input columns only: the row of 19:00 and what
    follows it are lost. *)
Lemma write_timeseries_failed_write_truncates_witness :
  ∃ w written,
    write_timeseries sample_float_str inputs_only_fs "timeseries.csv"
      "202512071900" sample_outputs
    = (Raise (ValueError (fields_not_in_fieldnames w)),
       <["timeseries.csv" := written]> inputs_only_fs) ∧
    Some "hp1_load" ∈ w ∧
    DictReader_rows (pyfloat:=Z) written
    = take 1 (DictReader_rows inputs_only_csv).
Proof.
  destruct (write_timeseries_failed_write_truncates sample_float_str
              inputs_only_fs "timeseries.csv" "202512071900" sample_outputs
              inputs_only_header inputs_only_data 1 inputs_only_row
              "hp1_load" 80%Z)
    as (w & written & H1 & H2 & _ & H3).
  - reflexivity.
  - compute_hyp.
  - exact inputs_only_first_match.
  - reflexivity.
  - compute_hyp.
  - exists w, written. exact (conj H1 (conj H2 H3)).
Defined.

(** X4 at the file with ragged lines. *)
Lemma write_timeseries_long_row_witness :
  ∃ w out,
    write_timeseries sample_float_str ragged_fs "timeseries.csv"
      "202512071900" no_outputs
    = (Raise (ValueError (fields_not_in_fieldnames w)),
       <["timeseries.csv" := out]> ragged_fs).
Proof.
  apply (write_timeseries_long_row sample_float_str ragged_fs "timeseries.csv"
           "202512071900" no_outputs inputs_only_header (tail ragged_csv)
           1 bad_number_row eq_refl).
  - compute_hyp.
  - exact ragged_bad_number_match.
Defined.


(** X5 at the sample file. *)
Lemma write_timeseries_records_witness :
  write_timeseries sample_float_str sample_fs "timeseries.csv" "202512071900"
    sample_outputs
  = (Ok (),
     <["timeseries.csv" := sample_header ::
         <[1 := patch_record sample_float_str sample_outputs sample_header
                  sample_record]> (filter nonblank sample_data)]> sample_fs).
Proof.
  destruct (write_timeseries_records sample_float_str sample_fs "timeseries.csv"
              "202512071900" sample_outputs sample_header sample_data 1
              sample_row eq_refl sample_header_NoDup sample_rectangular
              sample_given_in_header sample_first_match) as (rec & Hrec & ->).
  vm_compute in Hrec. by injection Hrec as <-.
Defined.

(** X6 at the sample file. *)
Lemma write_timeseries_commute_witness :
  (write_timeseries sample_float_str
     (write_timeseries sample_float_str sample_fs "timeseries.csv"
        "202512071900" sample_outputs).2
     "timeseries.csv" "202512071800" later_outputs).2
  = (write_timeseries sample_float_str
       (write_timeseries sample_float_str sample_fs "timeseries.csv"
          "202512071800" later_outputs).2
       "timeseries.csv" "202512071900" sample_outputs).2.
Proof.
  apply (write_timeseries_commute sample_float_str sample_fs "timeseries.csv"
           sample_header sample_data
           "202512071900" sample_outputs 1 sample_row
           "202512071800" later_outputs 0 sample_first_row
           eq_refl sample_rectangular sample_given_in_header
           later_given_in_header sample_first_match sample_first_row_match).
  discriminate.
Defined.

(** X7 at the sample file. *)
Lemma write_timeseries_override_witness :
  (write_timeseries sample_float_str
     (write_timeseries sample_float_str sample_fs "timeseries.csv"
        "202512071900" sample_outputs).2
     "timeseries.csv" "202512071900" later_outputs).2
  = (write_timeseries sample_float_str sample_fs "timeseries.csv"
       "202512071900" (override sample_outputs later_outputs)).2.
Proof.
  exact (write_timeseries_override sample_float_str sample_fs "timeseries.csv"
           sample_header sample_data "202512071900" sample_outputs later_outputs
           1 sample_row eq_refl sample_rectangular sample_given_in_header
           later_given_in_header sample_first_match).
Defined.

(** X15 at the sample file. *)
Lemma read_timeseries_Ok_inv_witness :
  ∃ records i row,
    sample_fs !! "timeseries.csv" = Some records ∧
    first_match (pyfloat:=Z) (DictReader_rows records) "202512071900" i row.
Proof.
  destruct (read_timeseries_Ok_inv sample_float_of_string sample_fs
              "timeseries.csv" "202512071900" 45%Z 120%Z eq_refl)
    as (records & i & row & t2 & F2 & H1 & H2 & _).
  exists records, i, row. exact (conj H1 H2).
Defined.

(** X8 at the file with ragged lines. *)
Lemma read_timeseries_not_a_number_witness :
  read_timeseries sample_float_of_string ragged_fs "timeseries.csv"
    "202512071900" = Raise (ValueError (could_not_convert_to_float "n/a")) ∧
  read_timeseries sample_float_of_string ragged_fs "timeseries.csv"
    "202512071800" = Raise TypeError.
Proof.
  split.
  - apply (proj1 (read_timeseries_not_a_number sample_float_of_string ragged_fs
                    "timeseries.csv" "202512071900" inputs_only_header
                    (tail ragged_csv) 1 bad_number_row eq_refl
                    ragged_bad_number_match)); reflexivity.
  - apply (proj1 (proj2 (read_timeseries_not_a_number sample_float_of_string
                           ragged_fs "timeseries.csv" "202512071800"
                           inputs_only_header (tail ragged_csv) 0 short_row
                           eq_refl ragged_short_row_match))).
    reflexivity.
Defined.

(** X9 at the sample file. *)
Lemma write_timeseries_preserves_reads_witness :
  read_timeseries sample_float_of_string
    (write_timeseries sample_float_str sample_fs "timeseries.csv"
       "202512071900" sample_outputs).2 "timeseries.csv" "202512071900"
  = Ok (45%Z, 120%Z).
Proof.
  rewrite (write_timeseries_preserves_reads sample_float_of_string
             sample_float_str sample_fs "timeseries.csv" "202512071900"
             sample_outputs sample_header sample_data "timeseries.csv"
             "202512071900" eq_refl sample_rectangular sample_given_in_header).
  reflexivity.
Defined.

(** X10 at an empty file and at a header followed by a blank line. *)
Lemma no_rows_not_found_witness :
  read_timeseries sample_float_of_string ragged_fs "empty.csv" "202512071900"
  = Raise (ValueError (timestamp_not_found "202512071900" "empty.csv")) ∧
  write_timeseries sample_float_str ragged_fs "header.csv" "202512071900"
    sample_outputs
  = (Raise (ValueError (timestamp_not_found "202512071900" "header.csv")),
     ragged_fs).
Proof.
  split.
  - apply (no_rows_not_found sample_float_of_string sample_float_str ragged_fs
             "empty.csv" "202512071900" sample_outputs [] eq_refl).
    constructor.
  - apply (no_rows_not_found sample_float_of_string sample_float_str ragged_fs
             "header.csv" "202512071900" sample_outputs [["t2"; "F2"]; []]
             eq_refl).
    by repeat constructor.
Defined.

(** X16 at documents that are not objects. *)
Lemma get_equipment_count_not_object_witness :
  get_equipment_count odd_json_fs "list.json" = Raise TypeError ∧
  get_equipment_count odd_json_fs "flat.json" = Raise TypeError.
Proof.
  split.
  - eapply (proj1 (get_equipment_count_not_object odd_json_fs "list.json"));
      [reflexivity|exact I].
  - eapply (proj2 (get_equipment_count_not_object odd_json_fs "flat.json"));
      [reflexivity|reflexivity|exact I].
Defined.

(** X11 at the sample configuration and at the failures. *)
Lemma get_pump_characteristics_spec_witness :
  get_pump_characteristics sample_json_fs "equipment_config.json" = Ok (JInt 3) ∧
  get_pump_characteristics sample_json_fs "absent.json"
  = Raise (FileNotFoundError "absent.json") ∧
  get_pump_characteristics sample_json_fs "broken.json" = Raise JSONDecodeError ∧
  get_pump_characteristics sample_json_fs "empty.json" = Raise (KeyError "pumps") ∧
  get_pump_characteristics odd_json_fs "no_power.json"
  = Raise (KeyError "rated_power") ∧
  get_pump_characteristics odd_json_fs "list.json" = Raise TypeError ∧
  get_pump_characteristics odd_json_fs "flat.json" = Raise TypeError.
Proof.
  split_and!.
  - eapply (proj1 (get_pump_characteristics_spec sample_json_fs
                     "equipment_config.json")); reflexivity.
  - by apply (get_pump_characteristics_spec sample_json_fs "absent.json").
  - by apply (get_pump_characteristics_spec sample_json_fs "broken.json").
  - eapply (proj1 (proj2 (proj2 (proj2 (get_pump_characteristics_spec
                                          sample_json_fs "empty.json")))));
      reflexivity.
  - eapply (proj1 (proj2 (proj2 (proj2 (proj2 (get_pump_characteristics_spec
                                                 odd_json_fs "no_power.json"))))));
      reflexivity.
  - eapply (proj1 (proj2 (proj2 (proj2 (proj2 (proj2
              (get_pump_characteristics_spec odd_json_fs "list.json")))))));
      [reflexivity|exact I].
  - eapply (proj2 (proj2 (proj2 (proj2 (proj2 (proj2
              (get_pump_characteristics_spec odd_json_fs "flat.json")))))));
      [reflexivity|reflexivity|exact I].
Defined.

(** X12 at a configuration with two power points. *)
Lemma get_hp_characteristics_no_length_check_witness :
  get_hp_characteristics odd_json_fs "two_points.json"
  = Ok [JInt 5; JInt 50; JInt 7; JInt 20; JInt 100].
Proof.
  destruct (get_hp_characteristics_no_length_check odd_json_fs
              "two_points.json" _ _ _ _ _ _ _ _
              eq_refl eq_refl eq_refl eq_refl eq_refl eq_refl eq_refl eq_refl)
    as [Hlist _].
  exact (proj1 (Hlist [JInt 5; JInt 50] eq_refl)).
Defined.

(** X13 at a configuration without a supply temperature, whose power
    points are a number. *)
Lemma get_hp_characteristics_missing_witness :
  get_hp_characteristics odd_json_fs "scalar_power.json"
  = Raise (KeyError "supply_temperature").
Proof.
  eapply (proj1 (proj2 (proj2 (get_hp_characteristics_missing odd_json_fs
                                 "scalar_power.json" _ _ eq_refl eq_refl)
                          _ eq_refl) _ eq_refl)).
  reflexivity.
Defined.
